(** * Access Nature accessible tracking interfaces

    A shallow embedding of the two tracking front ends of the repository:

    - [Accessible]: class [AccessibleTrackingInterface] together with
      [AccessNatureTrackerV2.handleUnsavedRoute] (src/main.js);
    - [Enhanced]: class [EnhancedTrackingInterface] (the enhanced tracker
      script).

    Both classes keep the session state in a string field [state] and drive
    collaborators ([TrackingController], [AppState], [TimerController],
    [CompassController], the browser's [confirm]) whose code is not part of
    these files.  The collaborators are therefore an environment: the k-th
    call made to the outside world receives the response [env k], which is
    either a returned JavaScript value or a thrown error. *)

From Stdlib Require Import ZArith QArith Qround Lqa Lia Bool List String Ascii.
From Stdlib Require Import DecimalString.
Import ListNotations.

Local Open Scope string_scope.

(** ** JavaScript values *)

Module JS.

(** JSON-like values, as stored in a backup record.  A finite number is a
    rational (every finite double is one); [VNaN] is kept apart because it
    is falsy. *)
#[warnings="-register-all"]
Inductive value : Type :=
| VUndefined
| VNull
| VBool (b : bool)
| VNum (q : Q)
| VNaN
| VStr (s : string)
| VArr (items : list value)
| VObj (fields : list (string * value)).

(** [ToBoolean]. *)
Definition truthy (v : value) : bool :=
  match v with
  | VUndefined | VNull | VNaN => false
  | VBool b => b
  | VNum q => negb (Qeq_bool q 0)
  | VStr s => negb (s =? "")
  | VArr _ | VObj _ => true
  end.

(** [typeof v === 'object'] (true of [null], arrays and objects). *)
Definition typeof_object (v : value) : bool :=
  match v with
  | VNull | VArr _ | VObj _ => true
  | _ => false
  end.

Fixpoint lookup (k : string) (fields : list (string * value)) : value :=
  match fields with
  | [] => VUndefined
  | (k', v) :: rest => if k' =? k then v else lookup k rest
  end.

(** [v.k] for a [v] that is neither [null] nor [undefined]: own fields of
    an object, [undefined] for everything else (the keys read by the
    program are not array or string properties). *)
Definition get (v : value) (k : string) : value :=
  match v with
  | VObj fields => lookup k fields
  | _ => VUndefined
  end.

(** [a || b]. *)
Definition or_else (a b : value) : value := if truthy a then a else b.

(** [Math.round]: nearest integer, ties towards plus infinity. *)
Definition Math_round (x : Q) : Z := Qfloor (x + (1 # 2)).

Definition Math_floor (x : Q) : Z := Qfloor x.

(** Template-literal rendering of an integer-valued number. *)
Definition show (n : Z) : string := NilZero.string_of_int (Z.to_int n).

End JS.
Import JS.

(** ** Double-precision arithmetic

    [fl] rounds the exact result of an operation to a double.  The proofs
    only use that rounding is monotone and leaves small integers alone. *)

Section Arithmetic.

Variable fl : Q -> Q.

Definition fsub (x y : Q) : Q := fl (x - y).
Definition fdiv (x y : Q) : Q := fl (x / y).

(** The heading computed by both orientation listeners:
<<
    let newHeading = Math.round(360 - e.alpha);
    if (newHeading < 0) newHeading += 360;
    if (newHeading >= 360) newHeading -= 360;
>> *)
Definition newHeading (alpha : Q) : Z :=
  let newHeading := Math_round (fsub 360 alpha) in
  let newHeading := if (newHeading <? 0)%Z then (newHeading + 360)%Z else newHeading in
  let newHeading := if (newHeading >=? 360)%Z then (newHeading - 360)%Z else newHeading in
  newHeading.

Definition directions : list string :=
  ["N"; "NNE"; "NE"; "ENE"; "E"; "ESE"; "SE"; "SSE";
   "S"; "SSW"; "SW"; "WSW"; "W"; "WNW"; "NW"; "NNW"].

(** [directions[index]]: [None] is JavaScript's [undefined]. *)
Definition element (index : Z) : option string :=
  if (0 <=? index)%Z then nth_error directions (Z.to_nat index) else None.

(** [getCardinalDirection]; [%] truncates like [Z.rem]. *)
Definition getCardinalDirection (degrees : Q) : option string :=
  let index := Z.rem (Math_round (fdiv degrees (45 # 2))) 16 in
  element index.

(** The first line of [formatTime]. *)
Definition totalSeconds (milliseconds : Q) : Z :=
  Math_floor (fdiv milliseconds 1000).

(** [formatTime].  The seconds are a whole number kept in [Z]; both
    quotients are double divisions, and [%] is exact on doubles.  [show]
    prints the digits of a whole number, as the template literal does below
    10^21. *)
Definition formatTime (milliseconds : Q) : string :=
  let totalSeconds := totalSeconds milliseconds in
  let hours := Math_floor (fdiv (inject_Z totalSeconds) 3600) in
  let minutes := Math_floor (fdiv (inject_Z (Z.rem totalSeconds 3600)) 60) in
  let seconds := Z.rem totalSeconds 60 in
  if (hours >? 0)%Z then
    show hours ++ "h " ++ show minutes ++ "m " ++ show seconds ++ "s"
  else if (minutes >? 0)%Z then
    show minutes ++ "m " ++ show seconds ++ "s"
  else
    show seconds ++ "s".

End Arithmetic.

(** The rounding assumed of [fl]: monotone, and exact on the integers a
    double represents exactly. *)
Record rounding (fl : Q -> Q) : Prop := {
  fl_monotone : forall x y, x <= y -> fl x <= fl y;
  fl_integer : forall z : Z, (Z.abs z <= 2 ^ 53)%Z -> fl (inject_Z z) == inject_Z z
}.

Definition exact (x : Q) : Q := x.

(** Rounding that is also close: between 2^-12 and 2^53, far from underflow
    and overflow, the double nearest to [x] is off by less than the
    2^-53 part of [x]. *)
Record accurate (fl : Q -> Q) : Prop := {
  accurate_rounding : rounding fl;
  accurate_nearest : forall x,
    (1 # 4096) <= x -> x <= inject_Z (2 ^ 53) -> fl x < x + x / inject_Z (2 ^ 53)
}.

(** Binary64 rounding to nearest, ties to even, of a rational within the
    range of the normal doubles: 53 significant bits. *)
Definition pow2 (e : Z) : Q :=
  if (0 <=? e)%Z then inject_Z (2 ^ e) else 1 # Z.to_pos (2 ^ (- e)).

(** The exponent [k] with [2^k <= x < 2^(k+1)], for a positive [x]. *)
Definition binade (x : Q) : Z :=
  let k := (Z.log2 (Qnum x) - Z.log2 (Zpos (Qden x)))%Z in
  if Qle_bool (pow2 k) x then k else (k - 1)%Z.

Definition nearest_even (y : Q) : Z :=
  let f := Qfloor y in
  match Qcompare (y - inject_Z f) (1 # 2) with
  | Lt => f
  | Gt => (f + 1)%Z
  | Eq => if Z.even f then f else (f + 1)%Z
  end.

Definition round_positive (x : Q) : Q :=
  let e := (binade x - 52)%Z in
  inject_Z (nearest_even (x / pow2 e)) * pow2 e.

Definition double (x : Q) : Q :=
  match Qcompare x 0 with
  | Eq => 0
  | Gt => round_positive x
  | Lt => - round_positive (- x)
  end.

(** ** Effects

    What a handler does besides updating its own object: calls to the
    collaborators, which the environment answers, and writes to the page,
    the screen reader and the console, which are only recorded.  Message
    texts are given without their pictographs. *)

Inductive response : Type :=
| Ret (v : value)
| Raise (error : string).

(** The figures quoted by the restore dialogue of [showRestoreDialog]. *)
Record summary : Type := {
  distance : Q;
  locationPoints : nat;
  photos : nat;
  notes : nat
}.

Inductive message : Type :=
| Text (s : string)
| RestoreOffer (s : summary)
| DiscardWarning (s : summary)
| RouteRestored (s : summary)
| RouteRestoredSpoken (s : summary)
| RouteRestoredShort (s : summary)
| BackupFound (gps photos notes : nat).

Inductive call : Type :=
| TrackingStart
| TrackingTogglePause
| TrackingStop
| CheckForUnsavedRoute
| RestoreFromBackup (backupData : value)
| ClearRouteBackup
| SetElapsedTime (elapsedTime : value)
| Confirm (prompt : message)
| OriginalCompassHandler (alpha : option Q).

Inductive event : Type :=
| Called (c : call) (r : response)
| ScreenReader (priority : string) (m : message)
| SuccessMessage (m : message)
| ErrorMessage (m : message)
| Alert (m : message)
| Console (level : string) (m : message)
| Dom (update : string).

Inductive result (A : Type) : Type :=
| Ok (a : A)
| Exn (error : string).
Arguments Ok {A} a.
Arguments Exn {A} error.

(** The object the handler runs on, the number of calls made so far and the
    record of everything done, oldest first. *)
Record world (Self : Type) : Type := {
  self : Self;
  clock : nat;
  trace : list event
}.
Arguments self {Self} w.
Arguments clock {Self} w.
Arguments trace {Self} w.

Definition M (Self A : Type) : Type := world Self -> result A * world Self.

Section Runtime.

Variable env : nat -> response.
Context {Self : Type}.

Definition ret {A} (a : A) : M Self A := fun w => (Ok a, w).

Definition bind {A B} (m : M Self A) (k : A -> M Self B) : M Self B :=
  fun w =>
    match m w with
    | (Ok a, w') => k a w'
    | (Exn e, w') => (Exn e, w')
    end.

Definition throw {A} (e : string) : M Self A := fun w => (Exn e, w).

(** [try { m } catch (error) { handler }] *)
Definition try_catch {A} (m : M Self A) (handler : string -> M Self A) : M Self A :=
  fun w =>
    match m w with
    | (Ok a, w') => (Ok a, w')
    | (Exn e, w') => handler e w'
    end.

Definition gets {A} (f : Self -> A) : M Self A := fun w => (Ok (f (self w)), w).

Definition modify (f : Self -> Self) : M Self unit :=
  fun w => (Ok tt, {| self := f (self w); clock := clock w; trace := trace w |}).

Definition emit (e : event) : M Self unit :=
  fun w => (Ok tt, {| self := self w; clock := clock w; trace := trace w ++ [e] |}).

(** A call to a collaborator: answered by the environment, recorded with
    its answer. *)
Definition invoke (c : call) : M Self value :=
  fun w =>
    let r := env (clock w) in
    let w' := {| self := self w; clock := S (clock w);
                 trace := trace w ++ [Called c r] |} in
    match r with
    | Ret v => (Ok v, w')
    | Raise e => (Exn e, w')
    end.

Definition lift {A} (r : result A) : M Self A := fun w => (r, w).

Definition when (b : bool) (m : M Self unit) : M Self unit :=
  if b then m else ret tt.

End Runtime.

Declare Scope js_scope.
Delimit Scope js_scope with js.
Notation "x <- m ;; k" := (bind m (fun x => k))
  (at level 61, m at next level, right associativity) : js_scope.
Notation "m ;; k" := (bind m (fun _ => k))
  (at level 61, right associativity) : js_scope.
Local Open Scope js_scope.

(** The calls recorded in a trace, in order. *)
Fixpoint calls (t : list event) : list call :=
  match t with
  | [] => []
  | Called c _ :: rest => c :: calls rest
  | _ :: rest => calls rest
  end.

(** ** Reading a backup record *)

(** [p.type === t] *)
Definition has_type (t : string) (p : value) : bool :=
  match get p "type" with
  | VStr s => s =? t
  | _ => false
  end.

Definition count (f : value -> bool) (items : list value) : nat :=
  List.length (List.filter f items).

(** The session states, as the code spells them. *)
Definition idle : string := "idle".
Definition tracking : string := "tracking".
Definition paused : string := "paused".

(** ** src/main.js: [AccessibleTrackingInterface] *)

Module Accessible.

Record AccessibleTrackingInterface : Type := {
  state : string;
  announcements : list string
}.

(** The fields as the constructor leaves them. *)
Definition constructed : AccessibleTrackingInterface :=
  {| state := idle; announcements := [] |}.

Definition boot : world AccessibleTrackingInterface :=
  {| self := constructed; clock := 0; trace := [] |}.

(** Lines 517-523 of [showRestoreDialog]: the figures of the dialogue.
    [toFixed] exists on numbers and [filter] on arrays only; calling them
    on anything else is a [TypeError]. *)
Definition summarize (backupData : value) : result summary :=
  let routeData := or_else (get backupData "routeData") (VArr []) in
  match or_else (get backupData "totalDistance") (VNum 0) with
  | VNum distance =>
      match routeData with
      | VArr items =>
          Ok {| distance := distance;
                locationPoints := count (fun p => truthy p && has_type "location" p) items;
                photos := count (fun p => truthy p && has_type "photo" p) items;
                notes := count (fun p => truthy p && has_type "text" p) items |}
      | _ => Exn "routeData.filter is not a function"
      end
  | _ => Exn "(intermediate value).toFixed is not a function"
  end.

Section Handlers.

Variable env : nat -> response.

Abbreviation M := (M AccessibleTrackingInterface).

Definition set_state (s : string) : M unit :=
  modify (fun this => {| state := s; announcements := announcements this |}).

Definition announceToScreenReader (m : message) (priority : string) : M unit :=
  emit (ScreenReader priority m);;
  emit (Console "log" m).

Definition showSuccessMessage (m : message) : M unit :=
  emit (SuccessMessage m);;
  announceToScreenReader m "polite".

Definition showError (m : message) : M unit :=
  emit (ErrorMessage m);;
  announceToScreenReader m "assertive".

(** Rewrites the three buttons and the indicator for the current state. *)
Definition updateAccessibleUI : M unit :=
  st <- gets state;;
  emit (Dom ("primary-button " ++ st)).

Definition handleStartClick : M value :=
  try_catch
    (st <- gets state;;
     (if st =? "idle" then
        emit (Console "log" (Text "Starting tracking via accessible interface"));;
        _ <- invoke env TrackingStart;;
        set_state "tracking";;
        announceToScreenReader (Text "Tracking started") "polite"
      else if st =? "paused" then
        _ <- invoke env TrackingTogglePause;;
        set_state "tracking";;
        announceToScreenReader (Text "Tracking resumed") "polite"
      else ret tt);;
     updateAccessibleUI)
    (fun error =>
       emit (Console "error" (Text ("Failed to start/resume tracking: " ++ error)));;
       announceToScreenReader (Text ("Failed to start tracking: " ++ error)) "polite");;
  ret VUndefined.

Definition handlePauseClick : M value :=
  st <- gets state;;
  when (st =? "tracking")
    (_ <- invoke env TrackingTogglePause;;
     set_state "paused";;
     announceToScreenReader (Text "Tracking paused") "polite";;
     updateAccessibleUI);;
  ret VUndefined.

Definition handleStopClick : M value :=
  st <- gets state;;
  when ((st =? "tracking") || (st =? "paused"))
    (_ <- invoke env TrackingStop;;
     set_state "idle";;
     announceToScreenReader (Text "Tracking stopped") "polite";;
     updateAccessibleUI);;
  ret VUndefined.

(** The value the promise of [showRestoreDialog] resolves with; [Exn] is
    a rejected promise.  Every path ends in one [resolve]. *)
Definition showRestoreDialog (backupData : value) : M bool :=
  try_catch
    (if negb (truthy backupData) || negb (typeof_object backupData) then
       emit (Console "error" (Text "Invalid backup data structure"));;
       ret false
     else
       s <- lift (summarize backupData);;
       shouldRestore <- invoke env (Confirm (RestoreOffer s));;
       if truthy shouldRestore then
         emit (Console "log" (Text "User chose to restore route"));;
         success <- invoke env (RestoreFromBackup backupData);;
         if truthy success then
           showSuccessMessage (RouteRestored s);;
           announceToScreenReader (RouteRestoredSpoken s) "polite";;
           ret true
         else
           showError (Text "Failed to restore route. Starting fresh.");;
           _ <- invoke env ClearRouteBackup;;
           ret false
       else
         confirmDiscard <- invoke env (Confirm (DiscardWarning s));;
         if truthy confirmDiscard then
           _ <- invoke env ClearRouteBackup;;
           showSuccessMessage (Text "Route data discarded. Starting fresh.");;
           ret false
         else
           success <- invoke env (RestoreFromBackup backupData);;
           if truthy success then
             showSuccessMessage (RouteRestoredShort s);;
             ret true
           else
             showError (Text "Failed to restore route.");;
             ret false)
    (fun error =>
       emit (Console "error" (Text ("Error in restore dialog: " ++ error)));;
       showError (Text "Error during route restoration.");;
       _ <- invoke env ClearRouteBackup;;
       ret false).

(** [AccessNatureTrackerV2.waitForStateController] polls a flag of the
    state controller at most ten times and returns. *)
Definition waitForStateController : M unit := ret tt.

(** [AccessNatureTrackerV2.handleUnsavedRoute], run by [initialize] once
    the interface object exists. *)
Definition handleUnsavedRoute : M value :=
  try_catch
    (waitForStateController;;
     backupData <- invoke env CheckForUnsavedRoute;;
     when (truthy backupData)
       (success <- showRestoreDialog backupData;;
        when success (emit (Console "log" (Text "Route restoration completed")))))
    (fun error =>
       emit (Console "error" (Text ("Error handling unsaved route: " ++ error))));;
  ret VUndefined.

(** The session controls, as wired by [initializeInterface] and
    [setupKeyboardShortcuts]. *)
Inductive control : Type := StartClick | PauseClick | StopClick.

Definition handler (c : control) : M value :=
  match c with
  | StartClick => handleStartClick
  | PauseClick => handlePauseClick
  | StopClick => handleStopClick
  end.

(** One control event.  An error escaping a listener is reported by the
    browser and the page goes on with the world the listener left. *)
Definition step (w : world AccessibleTrackingInterface) (c : control) :=
  snd (handler c w).

Definition run (cs : list control) (w : world AccessibleTrackingInterface) :=
  fold_left step cs w.

End Handlers.

End Accessible.

(** ** The enhanced tracker: [EnhancedTrackingInterface] *)

Module Enhanced.

Record EnhancedTrackingInterface : Type := {
  state : string;
  heading : Z;
  isMapRotationEnabled : bool
}.

Definition constructed : EnhancedTrackingInterface :=
  {| state := idle; heading := 0; isMapRotationEnabled := false |}.

Definition boot : world EnhancedTrackingInterface :=
  {| self := constructed; clock := 0; trace := [] |}.

(** [items.filter(p => p.type === t).length]; reading [type] off [null]
    or [undefined] is a [TypeError]. *)
Fixpoint count_type (t : string) (items : list value) : result nat :=
  match items with
  | [] => Ok 0%nat
  | p :: rest =>
      match p with
      | VUndefined | VNull => Exn "Cannot read properties of undefined (reading 'type')"
      | _ =>
          match count_type t rest with
          | Ok n => Ok (if has_type t p then S n else n)
          | Exn e => Exn e
          end
      end
  end.

(** [backup.routeData.filter(...)] of the prompt of [checkForBackupRoute]. *)
Definition count_points (t : string) (backup : value) : result nat :=
  match get backup "routeData" with
  | VArr items => count_type t items
  | VUndefined | VNull => Exn "Cannot read properties of undefined (reading 'filter')"
  | _ => Exn "backup.routeData.filter is not a function"
  end.

(** [backup.totalDistance?.toFixed(2)]: skipped on [null] and [undefined],
    a [TypeError] on any other value that is not a number. *)
Definition distance_text_ok (backup : value) : result unit :=
  match get backup "totalDistance" with
  | VUndefined | VNull | VNum _ | VNaN => Ok tt
  | _ => Exn "backup.totalDistance?.toFixed is not a function"
  end.

(** The prompt of [checkForBackupRoute], evaluated left to right. *)
Definition backup_prompt (backup : value) : result message :=
  match count_points "location" backup with
  | Exn e => Exn e
  | Ok gps =>
      match count_points "photo" backup with
      | Exn e => Exn e
      | Ok photos =>
          match count_points "text" backup with
          | Exn e => Exn e
          | Ok notes =>
              match distance_text_ok backup with
              | Exn e => Exn e
              | Ok _ => Ok (BackupFound gps photos notes)
              end
          end
      end
  end.

Section Handlers.

Variable fl : Q -> Q.
Variable env : nat -> response.

Abbreviation M := (M EnhancedTrackingInterface).

Definition set_state (s : string) : M unit :=
  modify (fun this => {| state := s; heading := heading this;
                         isMapRotationEnabled := isMapRotationEnabled this |}).

Definition set_heading (h : Z) : M unit :=
  modify (fun this => {| state := state this; heading := h;
                         isMapRotationEnabled := isMapRotationEnabled this |}).

Definition announceToScreenReader (m : message) : M unit :=
  emit (Console "log" m);;
  emit (ScreenReader "polite" m).

Definition updatePlayPauseButton (st : string) : M unit :=
  emit (Dom ("play-pause-btn " ++ st)).

Definition enableSaveButton : M unit := emit (Dom "save-btn enabled").

Definition updateSaveButton (st : string) : M unit :=
  emit (Dom ("save-btn " ++ st)).

Definition handlePlayPause : M value :=
  st <- gets state;;
  emit (Console "log" (Text ("handlePlayPause - Current state: " ++ st)));;
  try_catch
    ((if st =? "idle" then
        emit (Console "log" (Text "Starting tracking..."));;
        startSuccess <- invoke env TrackingStart;;
        when (truthy startSuccess)
          (set_state "tracking";;
           updatePlayPauseButton "tracking";;
           enableSaveButton;;
           announceToScreenReader (Text "GPS tracking started"))
      else if st =? "tracking" then
        emit (Console "log" (Text "Pausing tracking..."));;
        pauseSuccess <- invoke env TrackingTogglePause;;
        when (truthy pauseSuccess)
          (set_state "paused";;
           updatePlayPauseButton "paused";;
           announceToScreenReader (Text "GPS tracking paused"))
      else if st =? "paused" then
        emit (Console "log" (Text "Resuming tracking..."));;
        resumeSuccess <- invoke env TrackingTogglePause;;
        when (truthy resumeSuccess)
          (set_state "tracking";;
           updatePlayPauseButton "tracking";;
           announceToScreenReader (Text "GPS tracking resumed"))
      else ret tt);;
     st' <- gets state;;
     emit (Console "log" (Text ("State changed to: " ++ st'))))
    (fun error =>
       emit (Console "error" (Text ("Play/Pause action failed: " ++ error)));;
       emit (Alert (Text ("Failed to start/pause tracking: " ++ error))));;
  ret VUndefined.

(** The reset of the save button, two seconds later, is left to the timer. *)
Definition handleSave : M value :=
  st <- gets state;;
  emit (Console "log" (Text ("handleSave - Current state: " ++ st)));;
  (if (st =? "tracking") || (st =? "paused") then
     try_catch
       (stopSuccess <- invoke env TrackingStop;;
        when (truthy stopSuccess)
          (set_state "idle";;
           updatePlayPauseButton "idle";;
           updateSaveButton "saving";;
           announceToScreenReader (Text "Tracking stopped, route saved")))
       (fun error =>
          emit (Console "error" (Text ("Save action failed: " ++ error)));;
          emit (Alert (Text ("Failed to save route: " ++ error))))
   else
     emit (Console "log" (Text "Cannot save - not currently tracking")));;
  ret VUndefined.

(** [updateCompassDisplay]: the needle, then the heading text. *)
Definition updateCompassDisplay : M unit :=
  h <- gets heading;;
  emit (Dom ("rotate(" ++ show h ++ "deg)"));;
  emit (Dom (show h ++ " " ++
             match getCardinalDirection fl (inject_Z h) with
             | Some d => d
             | None => "undefined"
             end)).

(** The listener added by [startCompassListener]; [alpha] is [None] when
    the event carries [null]. *)
Definition onDeviceOrientation (alpha : option Q) : M value :=
  match alpha with
  | Some a =>
      set_heading (newHeading fl a);;
      updateCompassDisplay
  | None => ret tt
  end;;
  ret VUndefined.

(** The handler installed by [connectToCompassController]. *)
Definition handleOrientationChange (alpha : option Q) : M value :=
  _ <- invoke env (OriginalCompassHandler alpha);;
  match alpha with
  | Some a =>
      set_heading (newHeading fl a);;
      updateCompassDisplay
  | None => ret tt
  end;;
  ret VUndefined.

Definition checkForBackupRoute : M value :=
  emit (Console "log" (Text "Checking for unsaved route backup..."));;
  try_catch
    (backup <- invoke env CheckForUnsavedRoute;;
     when (truthy backup)
       (prompt <- lift (backup_prompt backup);;
        shouldRestore <- invoke env (Confirm prompt);;
        if truthy shouldRestore then
          emit (Console "log" (Text "Restoring backup route..."));;
          restored <- invoke env (RestoreFromBackup backup);;
          if truthy restored then
            announceToScreenReader (Text "Route backup restored successfully");;
            (if truthy (get backup "elapsedTime") then
               _ <- invoke env (SetElapsedTime (get backup "elapsedTime"));;
               ret tt
             else ret tt);;
            emit (Console "log" (Text "Route backup restored successfully"))
          else
            emit (Console "error" (Text "Failed to restore backup"))
        else
          _ <- invoke env ClearRouteBackup;;
          ret tt))
    (fun error =>
       emit (Console "error" (Text ("Error checking for backup: " ++ error))));;
  ret VUndefined.

(** The session controls, as wired by [initializeEnhancedControls] and
    [setupKeyboardShortcuts]. *)
Inductive control : Type := PlayPause | Save.

Definition handler (c : control) : M value :=
  match c with
  | PlayPause => handlePlayPause
  | Save => handleSave
  end.

Definition step (w : world EnhancedTrackingInterface) (c : control) :=
  snd (handler c w).

Definition run (cs : list control) (w : world EnhancedTrackingInterface) :=
  fold_left step cs w.

End Handlers.

End Enhanced.

(** ** Vocabulary of the specification *)

(** The three session states. *)
Definition valid (st : string) : Prop :=
  st = idle \/ st = tracking \/ st = paused.

(** The four legal transitions of the session state machine. *)
Inductive label : Type := start | pause | resume | stop.

Inductive legal : string -> label -> string -> Prop :=
| legal_start : legal idle start tracking
| legal_pause : legal tracking pause paused
| legal_resume : legal paused resume tracking
| legal_stop_tracking : legal tracking stop idle
| legal_stop_paused : legal paused stop idle.

(** Which transitions a control may fire.  The primary button of the
    accessible interface starts and resumes; the play/pause button of the
    enhanced interface starts, pauses and resumes. *)
Definition accessible_fires (c : Accessible.control) (l : label) : Prop :=
  match c, l with
  | Accessible.StartClick, start
  | Accessible.StartClick, resume
  | Accessible.PauseClick, pause
  | Accessible.StopClick, stop => True
  | _, _ => False
  end.

Definition enhanced_fires (c : Enhanced.control) (l : label) : Prop :=
  match c, l with
  | Enhanced.PlayPause, start
  | Enhanced.PlayPause, pause
  | Enhanced.PlayPause, resume
  | Enhanced.Save, stop => True
  | _, _ => False
  end.

(** What a handler did: the events it added to the record of [w]. *)
Definition since {Self} (w w' : world Self) : list event :=
  skipn (List.length (trace w)) (trace w').

(** [m] changes no field of the object it runs on. *)
Definition preserves {Self A} (m : M Self A) : Prop :=
  forall w, self (snd (m w)) = self w.

(** A caller is told of a failure when what it gets back differs from what
    it gets back from a run that succeeded. *)
Definition failure_signalled (failed succeeded : result value) : Prop :=
  failed <> succeeded.

(** A restore that went through: [restoreFromBackup] returned a truthy
    value. *)
Definition restore_succeeded (t : list event) : Prop :=
  exists backupData v,
    In (Called (RestoreFromBackup backupData) (Ret v)) t /\ truthy v = true.

(** The only way out of the error handler of [showRestoreDialog] other than
    [resolve(false)]: its own call of [clearRouteBackup] threw [e]. *)
Definition cleanup_failed (e : string) (t : list event) : Prop :=
  exists before, t = (before ++ [Called ClearRouteBackup (Raise e)])%list.

(** The line [handleUnsavedRoute] logs after a restore. *)
Definition completion : event := Console "log" (Text "Route restoration completed").

(** The layout of a duration, in the words of the specification: hours,
    minutes and seconds when there are hours, minutes and seconds when there
    are only minutes, seconds otherwise. *)
Definition layout (h m s : Z) : string :=
  if (0 <? h)%Z then show h ++ "h " ++ show m ++ "m " ++ show s ++ "s"
  else if (0 <? m)%Z then show m ++ "m " ++ show s ++ "s"
  else show s ++ "s".

(** ** Sample inputs *)

Definition location_point (lat lng : Q) : value :=
  VObj [("type", VStr "location"); ("latitude", VNum lat); ("longitude", VNum lng)].

(** A backup of two fixes, a photo and a note. *)
Definition sample_backup : value :=
  VObj [("routeData",
         VArr [location_point (321 # 10) (347 # 10);
               VObj [("type", VStr "photo"); ("content", VStr "img-1")];
               location_point (322 # 10) (347 # 10);
               VObj [("type", VStr "text"); ("content", VStr "steep ramp")]]);
        ("totalDistance", VNum (234 # 100));
        ("elapsedTime", VNum 90000);
        ("backupTime", VNum 1700000000000)].

(** A record whose route data is not a sequence. *)
Definition broken_backup : value :=
  VObj [("routeData", VStr "lost"); ("totalDistance", VNum 1)].

(** Environments: every call answered [true]; every call answered
    [false]; an explicit script, answered [undefined] once it runs out. *)
Definition always (v : value) : nat -> response := fun _ => Ret v.

Definition script (answers : list response) : nat -> response :=
  fun k => nth k answers (Ret VUndefined).

Definition in_state {Self} (o : Self) : world Self :=
  {| self := o; clock := 0; trace := [] |}.

Definition accessible_in (st : string) : world Accessible.AccessibleTrackingInterface :=
  in_state {| Accessible.state := st; Accessible.announcements := [] |}.

Definition enhanced_in (st : string) : world Enhanced.EnhancedTrackingInterface :=
  in_state {| Enhanced.state := st; Enhanced.heading := 0;
              Enhanced.isMapRotationEnabled := false |}.

(** * The rest of the page *)

(** ** Calls to page-level collaborators

    Collaborators beyond those of [call] (forms, media, navigation, the
    compass controller, page look-ups) are answered by the environment like
    any other call; the record keeps their name as a [Dom] entry. *)

Section External.

Variable env : nat -> response.
Context {Self : Type}.

Definition external (name : string) : M Self value :=
  fun w =>
    let w' := {| self := self w; clock := S (clock w);
                 trace := trace w ++ [Dom name] |} in
    match env (clock w) with
    | Ret v => (Ok v, w')
    | Raise e => (Exn e, w')
    end.

End External.

(** Runs a method of a part [S] of a larger object [T]. *)
Definition zoom {S T A} (part : T -> S) (update : S -> T -> T) (m : M S A) : M T A :=
  fun w =>
    let (r, w1) := m {| self := part (self w); clock := clock w; trace := trace w |} in
    (r, {| self := update (self w1) (self w); clock := clock w1; trace := trace w1 |}).

(** A promise nobody awaits: the body runs, a rejection reaches no one. *)
Definition unawaited {Self A} (m : M Self A) : M Self unit :=
  fun w => (Ok tt, snd (m w)).

(** ** src/main.js: what the page shows *)

Module Page.

(** The three buttons and the state indicator written by
    [updateAccessibleUI]. *)
Record controls : Type := {
  startBtn_className : string;
  startBtn_text : string;
  startBtn_label : string;
  pauseBtn_disabled : bool;
  stopBtn_disabled : bool;
  stateIndicator_className : string;
  stateIndicator_text : string
}.

(** [updateAccessibleUI] as a function of the state and of the four
    elements; [None] when one of them is missing from the page. *)
Definition updateAccessibleUI (st : string) (page : option controls) : option controls :=
  match page with
  | None => None
  | Some c =>
      let className := "primary-button " ++ st in
      Some
        (if st =? "idle" then
           {| startBtn_className := className;
              startBtn_text := "Start Tracking";
              startBtn_label := "Start tracking trail";
              pauseBtn_disabled := true;
              stopBtn_disabled := true;
              stateIndicator_className := "state-indicator state-idle";
              stateIndicator_text := "Ready" |}
         else if st =? "tracking" then
           {| startBtn_className := className;
              startBtn_text := "Pause Tracking";
              startBtn_label := "Pause tracking";
              pauseBtn_disabled := false;
              stopBtn_disabled := false;
              stateIndicator_className := "state-indicator state-tracking";
              stateIndicator_text := "Tracking" |}
         else if st =? "paused" then
           {| startBtn_className := className;
              startBtn_text := "Resume Tracking";
              startBtn_label := "Resume tracking";
              pauseBtn_disabled := true;
              stopBtn_disabled := false;
              stateIndicator_className := "state-indicator state-paused";
              stateIndicator_text := "Paused" |}
         else
           {| startBtn_className := className;
              startBtn_text := startBtn_text c;
              startBtn_label := startBtn_label c;
              pauseBtn_disabled := pauseBtn_disabled c;
              stopBtn_disabled := stopBtn_disabled c;
              stateIndicator_className := stateIndicator_className c;
              stateIndicator_text := stateIndicator_text c |})
  end.

(** An element of the document, as far as the panel functions look at it:
    its [id] (empty when it has none), whether it carries the classes
    [bottom-popup] and [hidden], and its [aria-expanded] attribute. *)
Record element : Type := {
  id : string;
  bottom_popup : bool;
  hidden : bool;
  aria_expanded : option string
}.

(** [classList.add('hidden'); setAttribute('aria-expanded', 'false')] *)
Definition collapse (p : element) : element :=
  {| id := id p; bottom_popup := bottom_popup p;
     hidden := true; aria_expanded := Some "false" |}.

(** [classList.remove('hidden'); setAttribute('aria-expanded', 'true')] *)
Definition expand (p : element) : element :=
  {| id := id p; bottom_popup := bottom_popup p;
     hidden := false; aria_expanded := Some "true" |}.

(** [classList.toggle('hidden')], then [aria-expanded] from what it was. *)
Definition flip (p : element) : element :=
  let isHidden := hidden p in
  {| id := id p; bottom_popup := bottom_popup p;
     hidden := negb isHidden;
     aria_expanded := Some (if isHidden then "true" else "false") |}.

(** [document.getElementById]: the first element of that id, none for the
    empty id. *)
Fixpoint first_with (panelId : string) (doc : list element) : option element :=
  match doc with
  | [] => None
  | p :: rest => if id p =? panelId then Some p else first_with panelId rest
  end.

Definition getElementById (panelId : string) (doc : list element) : option element :=
  if panelId =? "" then None else first_with panelId doc.

(** Writes through the element [getElementById] returns. *)
Fixpoint update_first (panelId : string) (f : element -> element)
    (doc : list element) : list element :=
  match doc with
  | [] => []
  | p :: rest =>
      if id p =? panelId then f p :: rest
      else p :: update_first panelId f rest
  end.

Definition update (panelId : string) (f : element -> element)
    (doc : list element) : list element :=
  if panelId =? "" then doc else update_first panelId f doc.

(** [AccessibleTrackingInterface.hideAllPanels] *)
Definition hideAllPanels (doc : list element) : list element :=
  map (fun panel => if bottom_popup panel then collapse panel else panel) doc.

(** [window.togglePanel] *)
Definition togglePanel (panelId : string) (doc : list element) : list element :=
  let doc :=
    map (fun panel =>
           if bottom_popup panel && negb (id panel =? panelId)
           then collapse panel else panel) doc in
  update panelId flip doc.

(** [AccessibleTrackingInterface.toggleQuickMenu]: the document and what is
    announced. *)
Definition toggleQuickMenu (doc : list element) : list element * option string :=
  match getElementById "quickActionsPanel" doc with
  | None => (doc, None)
  | Some menu =>
      let isHidden := hidden menu in
      let doc := hideAllPanels doc in
      if isHidden then
        (update "quickActionsPanel" expand doc, Some "Quick menu opened")
      else
        (doc, Some "Quick menu closed")
  end.

End Page.

(** ** src/main.js: [AccessNatureTrackerV2.waitForStateController] *)

Module Startup.

(** What the k-th look at [this.controllers.state] finds: no controller
    ([None]) or the value of its [dbReady]. *)
Definition sightings : Type := nat -> option value.

(** The loop with [remaining] attempts left, at attempt number [attempts]:
    the milliseconds it sleeps and the attempts it ends with. *)
Fixpoint poll (see : sightings) (remaining attempts : nat) : nat * nat :=
  match remaining with
  | O => (0, attempts)
  | S remaining' =>
      match see attempts with
      | Some VUndefined | None =>
          let (slept, n) := poll see remaining' (S attempts) in
          (100 + slept, n)
      | Some (VBool false) => (500, attempts)
      | Some _ => (0, attempts)
      end
  end%nat.

Definition maxAttempts : nat := 10.

Definition waitForStateController (see : sightings) : nat * nat :=
  poll see maxAttempts 0.

End Startup.

(** ** src/main.js: keyboard shortcuts *)

Module Keys.

Record keydown : Type := {
  key : string;
  tagName : string;
  isContentEditable : bool;
  ctrlKey : bool;
  metaKey : bool
}.

(** [toLowerCase] on the letters A to Z; no other character maps to a
    character of a shortcut. *)
Definition lower (c : ascii) : ascii :=
  let n := nat_of_ascii c in
  if ((65 <=? n) && (n <=? 90))%nat then ascii_of_nat (n + 32) else c.

Fixpoint toLowerCase (s : string) : string :=
  match s with
  | EmptyString => EmptyString
  | String c rest => String (lower c) (toLowerCase rest)
  end.

(** The interface and the document its panel functions write. *)
Record AccessiblePage : Type := {
  ui : Accessible.AccessibleTrackingInterface;
  document : list Page.element
}.

Section Shortcuts.

Variable env : nat -> response.

Definition on_ui {A} (m : M Accessible.AccessibleTrackingInterface A) : M AccessiblePage A :=
  zoom ui (fun u page => {| ui := u; document := document page |}) m.

Definition set_document (doc : list Page.element) : M AccessiblePage unit :=
  modify (fun page => {| ui := ui page; document := doc |}).

Definition announce (m : message) : M AccessiblePage unit :=
  on_ui (Accessible.announceToScreenReader m "polite").

(** [openAccessibilityForm]; the global function it looks for is the one
    the same file installs. *)
Definition openAccessibilityForm : M AccessiblePage unit :=
  announce (Text "Opening accessibility survey");;
  _ <- external env "window.openAccessibilityForm()";;
  ret tt.

Definition addTextNote : M AccessiblePage unit :=
  announce (Text "Adding text note");;
  _ <- external env "window.addTextNote()";;
  ret tt.

Definition hideAllPanels : M AccessiblePage unit :=
  doc <- gets document;;
  set_document (Page.hideAllPanels doc).

Definition toggleQuickMenu : M AccessiblePage unit :=
  doc <- gets document;;
  let (doc', said) := Page.toggleQuickMenu doc in
  set_document doc';;
  match said with
  | Some s => announce (Text s)
  | None => ret tt
  end.

Definition preventDefault : M AccessiblePage unit := emit (Dom "preventDefault").

(** The listener of [setupKeyboardShortcuts]. *)
Definition keydown_listener (e : keydown) : M AccessiblePage value :=
  if (tagName e =? "INPUT") || (tagName e =? "TEXTAREA") || isContentEditable e then
    ret VUndefined
  else
    let k := toLowerCase (key e) in
    (if k =? " " then
       preventDefault;;
       unawaited (on_ui (Accessible.handleStartClick env))
     else if k =? "p" then
       preventDefault;;
       _ <- on_ui (Accessible.handlePauseClick env);;
       ret tt
     else if k =? "a" then
       preventDefault;;
       openAccessibilityForm
     else if k =? "c" then
       preventDefault;;
       _ <- external env "takePhotoBtn.click()";;
       ret tt
     else if k =? "n" then
       preventDefault;;
       addTextNote
     else if k =? "escape" then
       st <- gets (fun page => Accessible.state (ui page));;
       when ((st =? "tracking") || (st =? "paused"))
         (_ <- on_ui (Accessible.handleStopClick env);;
          ret tt);;
       hideAllPanels
     else if k =? "m" then
       preventDefault;;
       toggleQuickMenu
     else ret tt);;
    ret VUndefined.

Definition boot : world AccessiblePage :=
  {| self := {| ui := Accessible.constructed; document := [] |};
     clock := 0; trace := [] |}.

End Shortcuts.

End Keys.

(** ** The enhanced tracker: map rotation and keyboard shortcuts *)

Module Rotation.

(** The two functions [compassController.handleOrientationChange] is ever
    bound to: the controller's own method and the arrow function installed
    by [connectToCompassController]. *)
Inductive handler : Type := Original | Wrapper.

Record EnhancedPage : Type := {
  iface : Enhanced.EnhancedTrackingInterface;
  originalCompassHandler : option handler;
  handleOrientationChange : handler
}.

Definition constructed : EnhancedPage :=
  {| iface := Enhanced.constructed;
     originalCompassHandler := None;
     handleOrientationChange := Original |}.

Definition boot : world EnhancedPage :=
  {| self := constructed; clock := 0; trace := [] |}.

Section Handlers.

Variable fl : Q -> Q.
Variable env : nat -> response.

Definition on_iface {A} (m : M Enhanced.EnhancedTrackingInterface A) : M EnhancedPage A :=
  zoom iface
    (fun i page => {| iface := i;
                      originalCompassHandler := originalCompassHandler page;
                      handleOrientationChange := handleOrientationChange page |}) m.

Definition connectToCompassController : M EnhancedPage unit :=
  modify (fun this =>
            {| iface := iface this;
               originalCompassHandler :=
                 match originalCompassHandler this with
                 | None => Some (handleOrientationChange this)
                 | Some h => Some h
                 end;
               handleOrientationChange := Wrapper |}).

Definition disconnectFromCompassController : M EnhancedPage unit :=
  modify (fun this =>
            {| iface := iface this;
               originalCompassHandler := originalCompassHandler this;
               handleOrientationChange :=
                 match originalCompassHandler this with
                 | Some h => h
                 | None => handleOrientationChange this
                 end |});;
  on_iface (Enhanced.set_heading 0;; Enhanced.updateCompassDisplay fl).

(** [this.isMapRotationEnabled] is only ever tested for truth. *)
Definition set_rotation (active : value) : M EnhancedPage unit :=
  on_iface
    (modify (fun this =>
               {| Enhanced.state := Enhanced.state this;
                  Enhanced.heading := Enhanced.heading this;
                  Enhanced.isMapRotationEnabled := truthy active |})).

Definition toggleMapRotation : M EnhancedPage value :=
  emit (Console "log" (Text "Toggling map rotation..."));;
  try_catch
    (_ <- external env "compassController.toggleRotation()";;
     active <- external env "compassController.isRotationActive()";;
     set_rotation active;;
     toggle <- external env "document.getElementById('mapRotationToggle')";;
     when (truthy toggle)
       (if truthy active then
          emit (Dom "mapRotationToggle active");;
          connectToCompassController
        else
          emit (Dom "mapRotationToggle");;
          disconnectFromCompassController))
    (fun error =>
       emit (Console "error" (Text ("Map rotation toggle failed: " ++ error))));;
  ret VUndefined.

(** An orientation event reaching the compass controller: whatever
    [handleOrientationChange] is bound to runs.  The wrapper calls
    [this.originalCompassHandler]; were that the wrapper itself, or nothing,
    the call would fail. *)
Definition orientation_event (alpha : option Q) : M EnhancedPage value :=
  h <- gets handleOrientationChange;;
  match h with
  | Original =>
      _ <- invoke env (OriginalCompassHandler alpha);;
      ret VUndefined
  | Wrapper =>
      original <- gets originalCompassHandler;;
      match original with
      | Some Original => on_iface (Enhanced.handleOrientationChange fl env alpha)
      | Some Wrapper => throw "Maximum call stack size exceeded"
      | None => throw "Cannot read properties of undefined (reading 'call')"
      end
  end.

Definition openAccessibilityForm : M EnhancedPage unit :=
  emit (Console "log" (Text "Opening accessibility form..."));;
  _ <- external env "accessibilityForm.open()";;
  ret tt.

Definition closeAccessibilityForm : M EnhancedPage unit :=
  emit (Console "log" (Text "Closing accessibility form..."));;
  _ <- external env "accessibilityForm.close()";;
  ret tt.

Definition takePhoto : M EnhancedPage unit :=
  emit (Console "log" (Text "Taking photo..."));;
  try_catch
    (_ <- external env "mediaController.capturePhoto()";;
     ret tt)
    (fun error => emit (Console "error" (Text ("Photo capture failed: " ++ error)))).

Definition addTextNote : M EnhancedPage unit :=
  emit (Console "log" (Text "Adding text note..."));;
  try_catch
    (_ <- external env "mediaController.addTextNote()";;
     ret tt)
    (fun error => emit (Console "error" (Text ("Note addition failed: " ++ error)))).

Definition preventDefault : M EnhancedPage unit := emit (Dom "preventDefault").

(** The listener of [setupKeyboardShortcuts]. *)
Definition keydown_listener (e : Keys.keydown) : M EnhancedPage value :=
  if (Keys.tagName e =? "INPUT") || (Keys.tagName e =? "TEXTAREA") then
    ret VUndefined
  else
    let k := Keys.toLowerCase (Keys.key e) in
    (if k =? " " then
       preventDefault;;
       unawaited (on_iface (Enhanced.handlePlayPause env))
     else if k =? "s" then
       when (Keys.ctrlKey e || Keys.metaKey e)
         (preventDefault;;
          unawaited (on_iface (Enhanced.handleSave env)))
     else if k =? "a" then
       preventDefault;;
       openAccessibilityForm
     else if k =? "escape" then
       closeAccessibilityForm;;
       _ <- external env "navigationController.hideAllPanels()";;
       ret tt
     else if k =? "r" then
       preventDefault;;
       unawaited toggleMapRotation
     else if k =? "p" then
       preventDefault;;
       unawaited takePhoto
     else if k =? "n" then
       preventDefault;;
       unawaited addTextNote
     else ret tt);;
    ret VUndefined.

(** What can happen to the compass wiring: the toggle is operated or an
    orientation event arrives. *)
Inductive happening : Type :=
| Toggle
| Orientation (alpha : option Q).

Definition occur (w : world EnhancedPage) (h : happening) : world EnhancedPage :=
  match h with
  | Toggle => snd (toggleMapRotation w)
  | Orientation alpha => snd (orientation_event alpha w)
  end.

Definition run (hs : list happening) (w : world EnhancedPage) : world EnhancedPage :=
  fold_left occur hs w.

End Handlers.

End Rotation.

(** * Properties *)

(** ** Arithmetic of the compass and of the timer *)

Example formatTime_hours : formatTime exact 3725999 = "1h 2m 5s".
Proof. reflexivity. Qed.

Example formatTime_seconds : formatTime exact 59999 = "59s".
Proof. reflexivity. Qed.

Example formatTime_minutes : formatTime exact 60000 = "1m 0s".
Proof. reflexivity. Qed.

Example newHeading_north : newHeading exact 0 = 0%Z.
Proof. reflexivity. Qed.

Example newHeading_half : newHeading exact (1 # 2) = 0%Z.
Proof. reflexivity. Qed.

Example newHeading_east : newHeading exact 270 = 90%Z.
Proof. reflexivity. Qed.

Example cardinal_wraps : getCardinalDirection exact 350 = Some "N".
Proof. reflexivity. Qed.

Example cardinal_below_zero : getCardinalDirection exact (-20) = None.
Proof. reflexivity. Qed.

Lemma exact_rounding : rounding exact.
Proof. split; unfold exact; intros; [assumption | reflexivity]. Qed.

Section Rounding.

Variable fl : Q -> Q.
Hypothesis fl_ok : rounding fl.

Lemma fl_between (x : Q) (n : Z) :
  (0 <= n <= 2 ^ 53)%Z -> 0 <= x -> x <= inject_Z n ->
  0 <= fl x /\ fl x <= inject_Z n.
Proof.
  intros Hn H0 Hx. split.
  - rewrite <- (fl_integer fl fl_ok 0) by (cbn; lia).
    now apply (fl_monotone fl fl_ok).
  - rewrite <- (fl_integer fl fl_ok n) by lia.
    now apply (fl_monotone fl fl_ok).
Qed.

Lemma Math_round_between (x : Q) (n : Z) :
  0 <= x -> x <= inject_Z n -> (0 <= Math_round x <= n)%Z.
Proof.
  intros H0 Hn. unfold Math_round. split.
  - change 0%Z with (Qfloor 0). apply Qfloor_resp_le. lra.
  - assert (H : inject_Z (Qfloor (x + (1 # 2))) < inject_Z (n + 1)).
    { eapply Qle_lt_trans; [apply Qfloor_le |].
      rewrite inject_Z_plus. change (inject_Z 1) with 1. lra. }
    rewrite <- Zlt_Qlt in H. lia.
Qed.

Lemma newHeading_range (alpha : Q) :
  0 <= alpha -> alpha <= 360 -> (0 <= newHeading fl alpha < 360)%Z.
Proof.
  intros H0 H360. unfold newHeading, fsub.
  destruct (fl_between (360 - alpha) 360) as [Hlo Hhi];
    [lia | lra | change (inject_Z 360) with 360; lra |].
  pose proof (Math_round_between _ 360 Hlo Hhi) as Hr.
  set (h := Math_round (fl (360 - alpha))) in *.
  destruct (Z.ltb_spec h 0); [lia |].
  destruct (Z.geb_spec h 360); lia.
Qed.

Lemma totalSeconds_nonneg (milliseconds : Q) :
  0 <= milliseconds -> (0 <= totalSeconds fl milliseconds)%Z.
Proof.
  intros H. unfold totalSeconds, Math_floor, fdiv.
  change 0%Z with (Qfloor 0). apply Qfloor_resp_le.
  rewrite <- (fl_integer fl fl_ok 0) by (cbn; lia).
  apply (fl_monotone fl fl_ok). change (inject_Z 0) with 0.
  apply Qle_shift_div_l; lra.
Qed.

End Rounding.

(** C8. After an orientation event whose [alpha] is a number between 0 and
    360, the [heading] field is an integer of the range 0 to 359: both the
    listener of [startCompassListener] and, when the original compass
    handler returns, the handler of [connectToCompassController] store
    [newHeading alpha], which lies in that range. *)
Theorem heading_in_range (fl : Q -> Q) (env : nat -> response) (alpha : Q)
    (w : world Enhanced.EnhancedTrackingInterface) :
  rounding fl -> 0 <= alpha -> alpha <= 360 ->
  (let w' := snd (Enhanced.onDeviceOrientation fl (Some alpha) w) in
   Enhanced.heading (self w') = newHeading fl alpha /\
   (0 <= Enhanced.heading (self w') < 360)%Z) /\
  (forall v, env (clock w) = Ret v ->
     let w' := snd (Enhanced.handleOrientationChange fl env (Some alpha) w) in
     Enhanced.heading (self w') = newHeading fl alpha /\
     (0 <= Enhanced.heading (self w') < 360)%Z).
Proof.
  intros Hfl H0 H360.
  pose proof (newHeading_range fl Hfl alpha H0 H360) as Hr.
  split.
  - cbn. split; [reflexivity | exact Hr].
  - intros v Hv. unfold Enhanced.handleOrientationChange, bind, invoke.
    rewrite Hv. cbn. split; [reflexivity | exact Hr].
Qed.

Lemma heading_in_range_witness :
  rounding exact /\ 0 <= 90 /\ 90 <= 360 /\
  (0 <= Enhanced.heading
          (self (snd (Enhanced.onDeviceOrientation exact (Some 90%Q) Enhanced.boot))) < 360)%Z.
Proof.
  split; [exact exact_rounding |].
  split; [discriminate |].
  split; [discriminate |].
  apply (heading_in_range exact (always VUndefined) 90 Enhanced.boot
           exact_rounding); discriminate.
Defined.

(** C9. For a number of degrees between 0 and 360 the index
    [Math.round(degrees / 22.5) % 16] lies within the sixteen directions and
    [getCardinalDirection] returns one of them, not [undefined]. *)
Theorem cardinal_direction_defined (fl : Q -> Q) (degrees : Q) :
  rounding fl -> 0 <= degrees -> degrees <= 360 ->
  (0 <= Z.rem (Math_round (fdiv fl degrees (45 # 2))) 16 < 16)%Z /\
  exists d, getCardinalDirection fl degrees = Some d /\ In d directions.
Proof.
  intros Hfl H0 H360.
  assert (Hq : 0 <= degrees / (45 # 2) /\ degrees / (45 # 2) <= inject_Z 16).
  { split.
    - apply Qle_shift_div_l; lra.
    - apply Qle_shift_div_r; [reflexivity |].
      change (inject_Z 16 * (45 # 2)) with ((16 # 1) * (45 # 2)). lra. }
  destruct Hq as [Hq0 Hq16].
  destruct (fl_between fl Hfl _ 16 ltac:(lia) Hq0 Hq16) as [Hf0 Hf16].
  pose proof (Math_round_between _ 16 Hf0 Hf16) as Hr.
  assert (Hi : (0 <= Z.rem (Math_round (fdiv fl degrees (45 # 2))) 16 < 16)%Z).
  { unfold fdiv. apply Z.rem_bound_pos; lia. }
  split; [exact Hi |].
  unfold getCardinalDirection, element.
  set (index := Z.rem (Math_round (fdiv fl degrees (45 # 2))) 16) in *.
  destruct (Z.leb_spec 0 index) as [_ | Hneg]; [| lia].
  destruct (nth_error directions (Z.to_nat index)) as [d |] eqn:Hd.
  - exists d. split; [reflexivity |]. eapply nth_error_In; eassumption.
  - exfalso. apply nth_error_None in Hd. cbn in Hd. lia.
Qed.

Lemma cardinal_direction_defined_witness :
  rounding exact /\ 0 <= 360 /\ 360 <= 360 /\
  exists d, getCardinalDirection exact 360 = Some d /\ In d directions.
Proof.
  split; [exact exact_rounding |].
  split; [discriminate |].
  split; [discriminate |].
  apply (cardinal_direction_defined exact 360 exact_rounding); discriminate.
Defined.

Example double_tenth : Qred (double (1 # 10)) = 3602879701896397 # 36028797018963968.
Proof. vm_compute. reflexivity. Qed.

Example double_tie_to_even :
  (Qred (double 9007199254740993), Qred (double 9007199254740995))
  = (9007199254740992, 9007199254740996).
Proof. vm_compute. reflexivity. Qed.

Example double_quotient :
  Qred (double (10000000000000000000 / 3600)) = 2777777777777778.
Proof. vm_compute. reflexivity. Qed.

Lemma exact_accurate : accurate exact.
Proof.
  split; [exact exact_rounding |].
  intros x Hlo Hhi. unfold exact.
  assert (0 < x / inject_Z (2 ^ 53)).
  { apply Qlt_shift_div_l; [reflexivity | lra]. }
  lra.
Qed.

Section Accuracy.

Variable fl : Q -> Q.
Hypothesis fl_ok : accurate fl.

Lemma fl_proper (x y : Q) : x == y -> fl x == fl y.
Proof.
  intros H. apply Qle_antisym;
    apply (fl_monotone fl (accurate_rounding fl fl_ok)); rewrite H; apply Qle_refl.
Qed.

Lemma Qfloor_between (y : Q) (n : Z) :
  inject_Z n <= y -> y < inject_Z (n + 1) -> Qfloor y = n.
Proof.
  intros Hlo Hhi.
  pose proof (Qfloor_resp_le _ _ Hlo) as H1. rewrite Qfloor_Z in H1.
  assert (H2 : inject_Z (Qfloor y) < inject_Z (n + 1)).
  { eapply Qle_lt_trans; [apply Qfloor_le | exact Hhi]. }
  rewrite <- Zlt_Qlt in H2. lia.
Qed.

(** Dividing whole numbers in doubles and taking the floor gives the
    integer quotient, as long as the dividend is exactly represented. *)
Lemma floor_fdiv (a b : Z) :
  (0 <= a <= 2 ^ 53)%Z -> (0 < b <= 4096)%Z ->
  Math_floor (fdiv fl (inject_Z a) (inject_Z b)) = (a / b)%Z.
Proof.
  intros Ha Hb. unfold Math_floor, fdiv.
  pose proof (accurate_rounding fl fl_ok) as Hr.
  assert (HB : 0 < inject_Z b)
    by (change 0 with (inject_Z 0); rewrite <- Zlt_Qlt; lia).
  set (x := inject_Z a / inject_Z b).
  assert (Hx : x * inject_Z b == inject_Z a).
  { unfold x. rewrite Qmult_comm. apply Qmult_div_r. lra. }
  pose proof (Z.div_mod a b ltac:(lia)) as Hdm.
  pose proof (Z.mod_pos_bound a b ltac:(lia)) as Hmod.
  pose proof (Z.div_pos a b ltac:(lia) ltac:(lia)) as Hn0.
  assert (Hn53 : (a / b <= 2 ^ 53)%Z).
  { apply Z.le_trans with a; [| lia]. apply Z.div_le_upper_bound; nia. }
  set (n := (a / b)%Z) in *.
  assert (Hlo : inject_Z n <= x).
  { unfold x. apply Qle_shift_div_l; [exact HB |].
    rewrite <- inject_Z_mult, <- Zle_Qle. nia. }
  apply Qfloor_between.
  - rewrite <- (fl_integer fl Hr n) by lia. now apply (fl_monotone fl Hr).
  - destruct (Z.eq_dec a 0) as [Ha0 | Ha0].
    + assert (Hx0 : x == inject_Z 0).
      { unfold x. rewrite Ha0. unfold Qdiv. ring. }
      rewrite (fl_proper _ _ Hx0), (fl_integer fl Hr 0) by (cbn; lia).
      rewrite <- Zlt_Qlt. lia.
    + assert (Hx1 : (1 # 4096) <= x).
      { unfold x. apply Qle_shift_div_l; [exact HB |].
        apply Qle_trans with 1.
        - apply Qle_trans with ((1 # 4096) * 4096); [| lra].
          apply Qmult_le_l; [reflexivity |].
          change 4096 with (inject_Z 4096). rewrite <- Zle_Qle. lia.
        - change 1 with (inject_Z 1). rewrite <- Zle_Qle. lia. }
      assert (Hx53 : x <= inject_Z (2 ^ 53)).
      { unfold x. apply Qle_shift_div_r; [exact HB |].
        rewrite <- inject_Z_mult, <- Zle_Qle. nia. }
      eapply Qlt_le_trans; [apply (accurate_nearest fl fl_ok x Hx1 Hx53) |].
      assert (Hsum : x + x / inject_Z (2 ^ 53)
                     == (inject_Z a + inject_Z a / inject_Z (2 ^ 53)) / inject_Z b).
      { rewrite <- Hx. field. split; [discriminate | lra]. }
      rewrite Hsum. apply Qle_shift_div_r; [exact HB |].
      rewrite <- inject_Z_mult.
      assert (Hup : inject_Z a + 1 <= inject_Z ((n + 1) * b)).
      { change 1 with (inject_Z 1). rewrite <- inject_Z_plus, <- Zle_Qle. nia. }
      assert (Hfrac : inject_Z a / inject_Z (2 ^ 53) <= 1).
      { apply Qle_shift_div_r; [reflexivity |].
        rewrite Qmult_1_l, <- Zle_Qle. lia. }
      lra.
Qed.

End Accuracy.

(** C10, as stated, fails.  For 10^22 milliseconds the seconds are 10^19;
    their quotient by 3600 lies between two doubles and is rounded up, so
    [formatTime] prints one hour too many and no decomposition of the
    seconds into hours, minutes below 60 and seconds below 60 is the one
    it lays out. *)
Lemma formatTime_beyond_safe_integers :
  formatTime double 10000000000000000000000 = "2777777777777778h 46m 40s" /\
  Math_floor (fdiv double 10000000000000000000000 1000) = (10 ^ 19)%Z /\
  ~ (exists h m s : Z,
       (0 <= h)%Z /\ (0 <= m < 60)%Z /\ (0 <= s < 60)%Z /\
       (h * 3600 + m * 60 + s
        = Math_floor (fdiv double 10000000000000000000000 1000))%Z /\
       formatTime double 10000000000000000000000 = layout h m s).
Proof.
  assert (Hf : formatTime double 10000000000000000000000
               = "2777777777777778h 46m 40s") by (vm_compute; reflexivity).
  assert (Ht : Math_floor (fdiv double 10000000000000000000000 1000) = (10 ^ 19)%Z)
    by (vm_compute; reflexivity).
  split; [exact Hf |]. split; [exact Ht |].
  intros (h & m & s & Hh & Hm & Hs & Hsum & Heq).
  rewrite Ht in Hsum. rewrite Hf in Heq.
  assert (h = 2777777777777777%Z /\ m = 46%Z /\ s = 40%Z) as (-> & -> & ->).
  { change (10 ^ 19)%Z with 10000000000000000000%Z in Hsum. lia. }
  vm_compute in Heq. discriminate Heq.
Qed.

(** C10, amended. For a number of milliseconds from 0 to 2^53,
    [formatTime] lays out the decomposition of
    [Math.floor(milliseconds / 1000)] seconds into hours, minutes below 60
    and seconds below 60, which add up to that number of seconds: for a
    whole number of milliseconds, to its integer quotient by 1000. *)
Theorem formatTime_decomposes (fl : Q -> Q) (milliseconds : Q) :
  accurate fl -> 0 <= milliseconds -> milliseconds <= inject_Z (2 ^ 53) ->
  exists h m s : Z,
    (0 <= h)%Z /\ (0 <= m < 60)%Z /\ (0 <= s < 60)%Z /\
    (h * 3600 + m * 60 + s = Math_floor (fdiv fl milliseconds 1000))%Z /\
    (forall z : Z, milliseconds == inject_Z z ->
       (h * 3600 + m * 60 + s = z / 1000)%Z) /\
    formatTime fl milliseconds = layout h m s.
Proof.
  intros Hfl Hms Hmax.
  pose proof (accurate_rounding fl Hfl) as Hr.
  pose proof (totalSeconds_nonneg fl Hr milliseconds Hms) as Ht.
  assert (Ht53 : (totalSeconds fl milliseconds <= 2 ^ 44)%Z).
  { unfold totalSeconds, Math_floor, fdiv.
    rewrite <- (Qfloor_Z (2 ^ 44)). apply Qfloor_resp_le.
    rewrite <- (fl_integer fl Hr (2 ^ 44)) by (cbn; lia).
    apply (fl_monotone fl Hr). apply Qle_shift_div_r; [reflexivity |].
    eapply Qle_trans; [exact Hmax |].
    change 1000 with (inject_Z 1000).
    rewrite <- inject_Z_mult, <- Zle_Qle. cbn. lia. }
  unfold formatTime, layout.
  change (Math_floor (fdiv fl milliseconds 1000)) with (totalSeconds fl milliseconds).
  set (t := totalSeconds fl milliseconds) in *.
  change 3600 with (inject_Z 3600). change 60 with (inject_Z 60).
  pose proof (Z.rem_bound_pos t 3600 Ht ltac:(lia)) as Hrem.
  rewrite (floor_fdiv fl Hfl t 3600) by (cbn in *; lia).
  rewrite (floor_fdiv fl Hfl (Z.rem t 3600) 60) by (cbn in *; lia).
  rewrite !Z.rem_mod_nonneg by lia.
  exists (t / 3600)%Z, ((t mod 3600) / 60)%Z, (t mod 60)%Z.
  pose proof (Z.mod_pos_bound t 3600 ltac:(lia)) as Hm.
  pose proof (Z.mod_pos_bound t 60 ltac:(lia)) as Hs.
  assert (Hmm : (t mod 60 = (t mod 3600) mod 60)%Z).
  { pose proof (Z.div_mod t 3600 ltac:(lia)) as E.
    rewrite E at 1.
    replace (3600 * (t / 3600) + t mod 3600)%Z
      with (t mod 3600 + (60 * (t / 3600)) * 60)%Z by lia.
    apply Z.mod_add. lia. }
  assert (Hsum : (t / 3600 * 3600 + t mod 3600 / 60 * 60 + t mod 60 = t)%Z).
  { pose proof (Z.div_mod t 3600 ltac:(lia)) as E1.
    pose proof (Z.div_mod (t mod 3600) 60 ltac:(lia)) as E2.
    lia. }
  split; [apply Z.div_pos; lia |].
  split; [split; [apply Z.div_pos; lia | apply Z.div_lt_upper_bound; lia] |].
  split; [lia |].
  split; [exact Hsum |].
  split.
  - intros z Hz. rewrite Hsum. unfold t, totalSeconds.
    assert (Hz0 : (0 <= z <= 2 ^ 53)%Z).
    { split.
      - rewrite Zle_Qle. rewrite <- Hz. exact Hms.
      - rewrite Zle_Qle. rewrite <- Hz. exact Hmax. }
    assert (Heq : milliseconds / 1000 == inject_Z z / inject_Z 1000).
    { rewrite Hz. reflexivity. }
    unfold Math_floor, fdiv. rewrite (fl_proper fl Hfl _ _ Heq).
    apply (floor_fdiv fl Hfl z 1000); [exact Hz0 | lia].
  - rewrite !Z.gtb_ltb. reflexivity.
Qed.

Lemma formatTime_decomposes_witness :
  accurate exact /\ 0 <= 3725999 /\ 3725999 <= inject_Z (2 ^ 53) /\
  exists h m s : Z,
    (0 <= h)%Z /\ (0 <= m < 60)%Z /\ (0 <= s < 60)%Z /\
    (h * 3600 + m * 60 + s = Math_floor (fdiv exact 3725999 1000))%Z /\
    (forall z : Z, 3725999 == inject_Z z ->
       (h * 3600 + m * 60 + s = z / 1000)%Z) /\
    formatTime exact 3725999 = layout h m s.
Proof.
  split; [exact exact_accurate |].
  split; [discriminate |].
  split; [discriminate |].
  apply (formatTime_decomposes exact 3725999 exact_accurate); discriminate.
Defined.

(** ** Running a handler *)

Ltac js_unfold :=
  unfold Accessible.step, Accessible.handler,
    Accessible.handleUnsavedRoute, Accessible.waitForStateController,
    Accessible.handleStartClick, Accessible.handlePauseClick,
    Accessible.handleStopClick, Accessible.showRestoreDialog,
    Accessible.updateAccessibleUI, Accessible.showSuccessMessage,
    Accessible.showError, Accessible.announceToScreenReader,
    Accessible.set_state,
    Enhanced.step, Enhanced.handler,
    Enhanced.handlePlayPause, Enhanced.handleSave,
    Enhanced.checkForBackupRoute, Enhanced.updatePlayPauseButton,
    Enhanced.enableSaveButton, Enhanced.updateSaveButton,
    Enhanced.announceToScreenReader, Enhanced.set_state,
    bind, try_catch, gets, when, invoke, emit, modify, ret, lift, throw.

(** Splits on the next answer of the environment, or on its truthiness. *)
Ltac js_case :=
  match goal with
  | |- context [match ?env ?k with Ret _ => _ | Raise _ => _ end] =>
      let E := fresh "Hanswer" in destruct (env k) eqn:E
  | |- context [if truthy ?v then _ else _] =>
      let E := fresh "Htruthy" in destruct (truthy v) eqn:E
  end.

Ltac js_run := js_unfold; cbn; repeat (js_case; cbn).

Lemma skipn_exact {A} (l new : list A) :
  skipn (List.length l) (l ++ new) = new.
Proof. induction l as [| a l IH]; [reflexivity | exact IH]. Qed.

Ltac since_simpl :=
  unfold since; cbn [trace];
  rewrite <- ?app_assoc; cbn [app];
  rewrite ?skipn_exact, ?skipn_all.

(** ** The session state machine *)

Example accessible_session :
  map (fun w => Accessible.state (self w))
      [Accessible.run (always VUndefined) [Accessible.StartClick] Accessible.boot;
       Accessible.run (always VUndefined)
         [Accessible.StartClick; Accessible.PauseClick] Accessible.boot;
       Accessible.run (always VUndefined)
         [Accessible.StartClick; Accessible.PauseClick; Accessible.StartClick]
         Accessible.boot;
       Accessible.run (always VUndefined)
         [Accessible.StartClick; Accessible.PauseClick; Accessible.StopClick;
          Accessible.PauseClick] Accessible.boot]
  = [tracking; paused; tracking; idle].
Proof. reflexivity. Qed.

Example enhanced_session :
  map (fun w => Enhanced.state (self w))
      [Enhanced.run (always (VBool true)) [Enhanced.PlayPause] Enhanced.boot;
       Enhanced.run (always (VBool true))
         [Enhanced.PlayPause; Enhanced.PlayPause] Enhanced.boot;
       Enhanced.run (always (VBool true))
         [Enhanced.PlayPause; Enhanced.PlayPause; Enhanced.Save] Enhanced.boot;
       Enhanced.run (always (VBool false)) [Enhanced.PlayPause] Enhanced.boot]
  = [tracking; paused; idle; idle].
Proof. reflexivity. Qed.

Ltac legal_step :=
  split;
  [ unfold valid, idle, tracking, paused; auto
  | first
      [ left; reflexivity
      | right; exists start; split; [exact I | constructor]
      | right; exists pause; split; [exact I | constructor]
      | right; exists resume; split; [exact I | constructor]
      | right; exists stop; split; [exact I | constructor] ] ].

Lemma accessible_step_legal env w c :
  valid (Accessible.state (self w)) ->
  valid (Accessible.state (self (Accessible.step env w c))) /\
  (Accessible.state (self (Accessible.step env w c)) = Accessible.state (self w) \/
   exists l, accessible_fires c l /\
     legal (Accessible.state (self w)) l
           (Accessible.state (self (Accessible.step env w c)))).
Proof.
  destruct w as [[st ann] k tr]. cbn [self Accessible.state].
  intros [-> | [-> | ->]]; destruct c; js_run; legal_step.
Qed.

Lemma enhanced_step_legal env w c :
  valid (Enhanced.state (self w)) ->
  valid (Enhanced.state (self (Enhanced.step env w c))) /\
  (Enhanced.state (self (Enhanced.step env w c)) = Enhanced.state (self w) \/
   exists l, enhanced_fires c l /\
     legal (Enhanced.state (self w)) l
           (Enhanced.state (self (Enhanced.step env w c)))).
Proof.
  destruct w as [[st h rot] k tr]. cbn [self Enhanced.state].
  intros [-> | [-> | ->]]; destruct c; js_run; legal_step.
Qed.

Lemma accessible_run_valid env cs : forall w,
  valid (Accessible.state (self w)) ->
  valid (Accessible.state (self (Accessible.run env cs w))).
Proof.
  induction cs as [| c cs IH]; intros w Hw; [exact Hw |].
  cbn. apply IH. now apply accessible_step_legal.
Qed.

Lemma enhanced_run_valid env cs : forall w,
  valid (Enhanced.state (self w)) ->
  valid (Enhanced.state (self (Enhanced.run env cs w))).
Proof.
  induction cs as [| c cs IH]; intros w Hw; [exact Hw |].
  cbn. apply IH. now apply enhanced_step_legal.
Qed.

(** C1. Whatever controls are operated, in whatever order and whatever the
    collaborators answer, each interface started in ['idle'] is always in
    one of the states idle, tracking and paused, and every control either
    leaves the state as it is or performs one of the four legal transitions
    (start from idle, pause from tracking, resume from paused, stop from
    tracking or paused). *)
Theorem session_state_machine (env : nat -> response) :
  (forall cs : list Accessible.control,
     let w := Accessible.run env cs Accessible.boot in
     valid (Accessible.state (self w)) /\
     forall c,
       Accessible.state (self (Accessible.step env w c)) = Accessible.state (self w) \/
       exists l, accessible_fires c l /\
         legal (Accessible.state (self w)) l
               (Accessible.state (self (Accessible.step env w c)))) /\
  (forall cs : list Enhanced.control,
     let w := Enhanced.run env cs Enhanced.boot in
     valid (Enhanced.state (self w)) /\
     forall c,
       Enhanced.state (self (Enhanced.step env w c)) = Enhanced.state (self w) \/
       exists l, enhanced_fires c l /\
         legal (Enhanced.state (self w)) l
               (Enhanced.state (self (Enhanced.step env w c)))).
Proof.
  split; intros cs w.
  - assert (Hw : valid (Accessible.state (self w))).
    { apply accessible_run_valid. left. reflexivity. }
    split; [exact Hw |]. intros c. now apply accessible_step_legal.
  - assert (Hw : valid (Enhanced.state (self w))).
    { apply enhanced_run_valid. left. reflexivity. }
    split; [exact Hw |]. intros c. now apply enhanced_step_legal.
Qed.

(** ** Handlers that leave their object alone *)

Section Frame.

Context {Self : Type}.
Variable env : nat -> response.

Lemma preserves_ret {A} (a : A) : preserves (Self := Self) (ret a).
Proof. intros w. reflexivity. Qed.

Lemma preserves_gets {A} (f : Self -> A) : preserves (Self := Self) (gets f).
Proof. intros w. reflexivity. Qed.

Lemma preserves_emit (e : event) : preserves (Self := Self) (emit e).
Proof. intros w. reflexivity. Qed.

Lemma preserves_lift {A} (r : result A) : preserves (Self := Self) (lift r).
Proof. intros w. reflexivity. Qed.

Lemma preserves_invoke (c : call) : preserves (Self := Self) (invoke env c).
Proof. intros w. unfold invoke. destruct (env (clock w)); reflexivity. Qed.

Lemma preserves_bind {A B} (m : M Self A) (k : A -> M Self B) :
  preserves m -> (forall a, preserves (k a)) -> preserves (bind m k).
Proof.
  intros Hm Hk w. unfold bind. specialize (Hm w).
  destruct (m w) as [[a | e] w1]; cbn in *.
  - now rewrite Hk.
  - exact Hm.
Qed.

Lemma preserves_try_catch {A} (m : M Self A) (h : string -> M Self A) :
  preserves m -> (forall e, preserves (h e)) -> preserves (try_catch m h).
Proof.
  intros Hm Hh w. unfold try_catch. specialize (Hm w).
  destruct (m w) as [[a | e] w1]; cbn in *.
  - exact Hm.
  - now rewrite Hh.
Qed.

Lemma preserves_if {A} (b : bool) (m1 m2 : M Self A) :
  preserves m1 -> preserves m2 -> preserves (if b then m1 else m2).
Proof. destruct b; auto. Qed.

Lemma preserves_when (b : bool) (m : M Self unit) :
  preserves m -> preserves (when b m).
Proof. destruct b; [auto | intros _ w; reflexivity]. Qed.

End Frame.

Ltac frame :=
  repeat first
    [ apply preserves_ret | apply preserves_gets | apply preserves_emit
    | apply preserves_lift | apply preserves_invoke
    | apply preserves_bind | apply preserves_try_catch
    | apply preserves_if | apply preserves_when
    | intro ].

Lemma showRestoreDialog_preserves env backupData :
  preserves (Accessible.showRestoreDialog env backupData).
Proof.
  unfold Accessible.showRestoreDialog, Accessible.showSuccessMessage,
    Accessible.showError, Accessible.announceToScreenReader.
  frame.
Qed.

Lemma handleUnsavedRoute_preserves env :
  preserves (Accessible.handleUnsavedRoute env).
Proof.
  unfold Accessible.handleUnsavedRoute, Accessible.waitForStateController.
  frame.
Qed.

Lemma checkForBackupRoute_preserves env :
  preserves (Enhanced.checkForBackupRoute env).
Proof.
  unfold Enhanced.checkForBackupRoute, Enhanced.announceToScreenReader.
  frame.
Qed.

(** ** Restoring a backup: the session state *)

Example sample_summary :
  Accessible.summarize sample_backup
  = Ok {| distance := 234 # 100; locationPoints := 2; photos := 1; notes := 1 |}.
Proof. reflexivity. Qed.

Example broken_summary :
  Accessible.summarize broken_backup = Exn "routeData.filter is not a function".
Proof. reflexivity. Qed.

(** C2, as stated, fails: an accepted restore that succeeds at startup
    leaves the accessible interface, and the enhanced one, in ['idle'], not
    in ['paused']. *)
Lemma accepted_restore_not_paused :
  let accepted :=
    Accessible.showRestoreDialog (always (VBool true)) sample_backup Accessible.boot in
  let checked :=
    Enhanced.checkForBackupRoute
      (script [Ret sample_backup; Ret (VBool true); Ret (VBool true)]) Enhanced.boot in
  fst accepted = Ok true /\
  calls (trace (snd accepted))
    = [Confirm (RestoreOffer {| distance := 234 # 100; locationPoints := 2;
                                photos := 1; notes := 1 |});
       RestoreFromBackup sample_backup] /\
  Accessible.state (self (snd accepted)) = idle /\
  Accessible.state (self (snd accepted)) <> paused /\
  calls (trace (snd checked))
    = [CheckForUnsavedRoute; Confirm (BackupFound 2 1 1);
       RestoreFromBackup sample_backup; SetElapsedTime (VNum 90000)] /\
  Enhanced.state (self (snd checked)) = idle /\
  Enhanced.state (self (snd checked)) <> paused.
Proof.
  cbv zeta. repeat split; try reflexivity; cbn; discriminate.
Qed.

(** C2, amended. The restore flow, accepted or not, successful or not,
    changes no field of the interface: the session state after it is the
    state before it, ['idle'] at startup.  It is never moved to
    ['tracking'], nor to ['paused']. *)
Theorem restore_keeps_session_state (env : nat -> response) (backupData : value)
    (w : world Accessible.AccessibleTrackingInterface)
    (w2 : world Enhanced.EnhancedTrackingInterface) :
  Accessible.state (self (snd (Accessible.showRestoreDialog env backupData w)))
    = Accessible.state (self w) /\
  Accessible.state (self (snd (Accessible.handleUnsavedRoute env w)))
    = Accessible.state (self w) /\
  Enhanced.state (self (snd (Enhanced.checkForBackupRoute env w2)))
    = Enhanced.state (self w2) /\
  Accessible.state (self (snd (Accessible.handleUnsavedRoute env Accessible.boot)))
    = idle /\
  Enhanced.state (self (snd (Enhanced.checkForBackupRoute env Enhanced.boot)))
    = idle.
Proof.
  repeat split.
  - now rewrite showRestoreDialog_preserves.
  - now rewrite handleUnsavedRoute_preserves.
  - now rewrite checkForBackupRoute_preserves.
  - now rewrite handleUnsavedRoute_preserves.
  - now rewrite checkForBackupRoute_preserves.
Qed.

(** ** Failed starts and stops *)

Example throwing_start_is_announced :
  let failed :=
    Accessible.handleStartClick (script [Raise "Geolocation denied"])
      (accessible_in idle) in
  Accessible.state (self (snd failed)) = idle /\
  In (ScreenReader "polite" (Text "Failed to start tracking: Geolocation denied"))
     (trace (snd failed)).
Proof. cbv zeta. split; [reflexivity | cbn; auto]. Qed.

(** What [handleStartClick] does with a start that resolves to [false]. *)
Example accessible_start_ignores_result :
  let started :=
    Accessible.handleStartClick (always (VBool false)) (accessible_in idle) in
  fst started = Ok VUndefined /\
  Accessible.state (self (snd started)) = tracking /\
  In (ScreenReader "polite" (Text "Tracking started")) (trace (snd started)).
Proof. cbv zeta. repeat split; cbn; auto. Qed.

(** C3, as stated, fails.  In the enhanced interface a start that resolves
    to [false] hands the caller exactly what a start that resolves to
    [true] hands it, and nothing is announced or alerted: the failure is not
    signalled.  In the accessible interface the same answer moves the state
    to ['tracking']. *)
Lemma failed_start_not_signalled :
  let failed := Enhanced.handlePlayPause (always (VBool false)) (enhanced_in idle) in
  let started := Enhanced.handlePlayPause (always (VBool true)) (enhanced_in idle) in
  let ignored :=
    Accessible.handleStartClick (always (VBool false)) (accessible_in idle) in
  Enhanced.state (self (snd started)) = tracking /\
  ~ failure_signalled (fst failed) (fst started) /\
  trace (snd failed)
    = [Console "log" (Text "handlePlayPause - Current state: idle");
       Console "log" (Text "Starting tracking...");
       Called TrackingStart (Ret (VBool false));
       Console "log" (Text "State changed to: idle")] /\
  Accessible.state (self (snd ignored)) = tracking /\
  Accessible.state (self (snd ignored)) <> idle.
Proof.
  cbv zeta. repeat split; try reflexivity.
  - intros H. apply H. reflexivity.
  - cbn. discriminate.
Qed.

(** C3, amended. When [handlePlayPause] is invoked in ['idle'] and the
    tracking controller's [start] resolves to a falsy value, the state
    stays ['idle'] and no field of the interface changes; the handler
    returns [undefined] and does nothing but call [start] and write to the
    console, so the caller learns of the failure only from the state. *)
Theorem failed_start_stays_idle (env : nat -> response) (v : value)
    (w : world Enhanced.EnhancedTrackingInterface) :
  Enhanced.state (self w) = idle ->
  env (clock w) = Ret v ->
  truthy v = false ->
  fst (Enhanced.handlePlayPause env w) = Ok VUndefined /\
  self (snd (Enhanced.handlePlayPause env w)) = self w /\
  Enhanced.state (self (snd (Enhanced.handlePlayPause env w))) = idle /\
  since w (snd (Enhanced.handlePlayPause env w))
    = [Console "log" (Text "handlePlayPause - Current state: idle");
       Console "log" (Text "Starting tracking...");
       Called TrackingStart (Ret v);
       Console "log" (Text "State changed to: idle")].
Proof.
  destruct w as [[st h rot] k tr]. cbn [self clock Enhanced.state].
  intros -> Hv Hfalsy. js_unfold. cbn. rewrite Hv. cbn. rewrite Hfalsy. cbn.
  repeat split. since_simpl. reflexivity.
Qed.

Lemma failed_start_stays_idle_witness :
  Enhanced.state (self (enhanced_in idle)) = idle /\
  always (VBool false) (clock (enhanced_in idle)) = Ret (VBool false) /\
  truthy (VBool false) = false /\
  Enhanced.state
    (self (snd (Enhanced.handlePlayPause (always (VBool false)) (enhanced_in idle))))
  = idle.
Proof.
  split; [reflexivity |].
  split; [reflexivity |].
  split; [reflexivity |].
  apply (failed_start_stays_idle (always (VBool false)) (VBool false)
           (enhanced_in idle)); reflexivity.
Defined.

(** C7, as stated, fails: a stop in ['idle'] returns to its caller exactly
    what a stop that went through returns, in both interfaces. *)
Lemma idle_stop_not_signalled :
  let refused := Accessible.handleStopClick (always (VBool true)) (accessible_in idle) in
  let stopped :=
    Accessible.handleStopClick (always (VBool true)) (accessible_in tracking) in
  let unsaved := Enhanced.handleSave (always (VBool true)) (enhanced_in idle) in
  let saved := Enhanced.handleSave (always (VBool true)) (enhanced_in tracking) in
  Accessible.state (self (snd stopped)) = idle /\
  calls (trace (snd stopped)) = [TrackingStop] /\
  ~ failure_signalled (fst refused) (fst stopped) /\
  Enhanced.state (self (snd saved)) = idle /\
  calls (trace (snd saved)) = [TrackingStop] /\
  ~ failure_signalled (fst unsaved) (fst saved).
Proof.
  cbv zeta. repeat split; try reflexivity; intros H; apply H; reflexivity.
Qed.

(** C7, amended. A stop in ['idle'] is a silent no-op.  [handleStopClick]
    changes nothing at all and returns [undefined]; [handleSave] returns
    [undefined], changes no field and only writes to the console.  Neither
    calls the tracking controller's [stop], so nothing is finalised, and
    neither returns a failure signal. *)
Theorem stop_when_idle_is_silent (env : nat -> response)
    (w : world Accessible.AccessibleTrackingInterface)
    (w2 : world Enhanced.EnhancedTrackingInterface) :
  Accessible.state (self w) = idle ->
  Enhanced.state (self w2) = idle ->
  Accessible.handleStopClick env w = (Ok VUndefined, w) /\
  fst (Enhanced.handleSave env w2) = Ok VUndefined /\
  self (snd (Enhanced.handleSave env w2)) = self w2 /\
  Enhanced.state (self (snd (Enhanced.handleSave env w2))) = idle /\
  clock (snd (Enhanced.handleSave env w2)) = clock w2 /\
  since w2 (snd (Enhanced.handleSave env w2))
    = [Console "log" (Text "handleSave - Current state: idle");
       Console "log" (Text "Cannot save - not currently tracking")].
Proof.
  destruct w as [[st ann] k tr], w2 as [[st2 h rot] k2 tr2].
  cbn [self clock Accessible.state Enhanced.state].
  intros -> ->. js_unfold. cbn.
  repeat split. since_simpl. reflexivity.
Qed.

Lemma stop_when_idle_is_silent_witness :
  Accessible.state (self (accessible_in idle)) = idle /\
  Enhanced.state (self (enhanced_in idle)) = idle /\
  Accessible.handleStopClick (always (VBool true)) (accessible_in idle)
  = (Ok VUndefined, accessible_in idle).
Proof.
  split; [reflexivity |].
  split; [reflexivity |].
  apply (stop_when_idle_is_silent (always (VBool true)) (accessible_in idle)
           (enhanced_in idle)); reflexivity.
Defined.

(** ** Restoring a backup: the decision *)

Example reject_then_decline :
  let r :=
    Accessible.showRestoreDialog
      (script [Ret (VBool false); Ret (VBool false); Ret (VBool true)])
      sample_backup Accessible.boot in
  fst r = Ok true /\
  map (fun c => match c with Confirm _ => "confirm" | RestoreFromBackup _ => "restore"
                           | ClearRouteBackup => "clear" | _ => "other" end)
      (calls (trace (snd r)))
  = ["confirm"; "confirm"; "restore"].
Proof. cbv zeta. split; reflexivity. Qed.

(** C4. When the restore offer is turned down and the discard warning is
    turned down as well, [showRestoreDialog] calls [restoreFromBackup] on
    the backup it was given, without having called [clearRouteBackup]; if
    that call returns a truthy value the dialogue resolves with [true] and
    the backup slot is not cleared at all. *)
Theorem declined_discard_restores (env : nat -> response) (backupData : value)
    (s : summary) (v1 v2 : value) (w : world Accessible.AccessibleTrackingInterface) :
  truthy backupData = true ->
  typeof_object backupData = true ->
  Accessible.summarize backupData = Ok s ->
  env (clock w) = Ret v1 -> truthy v1 = false ->
  env (S (clock w)) = Ret v2 -> truthy v2 = false ->
  let r := Accessible.showRestoreDialog env backupData w in
  (exists rest,
     calls (since w (snd r))
     = Confirm (RestoreOffer s) :: Confirm (DiscardWarning s)
         :: RestoreFromBackup backupData :: rest) /\
  (forall v3, env (S (S (clock w))) = Ret v3 -> truthy v3 = true ->
     fst r = Ok true /\
     calls (since w (snd r))
     = [Confirm (RestoreOffer s); Confirm (DiscardWarning s);
        RestoreFromBackup backupData]).
Proof.
  destruct w as [o k tr]. cbn [clock].
  intros Hb Hobj Hs H1 Ht1 H2 Ht2. cbv zeta.
  js_unfold. rewrite Hb, Hobj, Hs. cbn.
  rewrite H1. cbn. rewrite Ht1. cbn. rewrite H2. cbn. rewrite Ht2. cbn.
  split.
  - repeat (js_case; cbn); since_simpl; cbn [calls]; eexists; reflexivity.
  - intros v3 H3 Ht3. rewrite H3. cbn. rewrite Ht3. cbn.
    split; [reflexivity |]. since_simpl. reflexivity.
Qed.

Lemma declined_discard_restores_witness :
  truthy sample_backup = true /\
  typeof_object sample_backup = true /\
  script [Ret (VBool false); Ret (VBool false); Ret (VBool true)] 0 = Ret (VBool false) /\
  script [Ret (VBool false); Ret (VBool false); Ret (VBool true)] 1 = Ret (VBool false) /\
  script [Ret (VBool false); Ret (VBool false); Ret (VBool true)] 2 = Ret (VBool true) /\
  fst (Accessible.showRestoreDialog
         (script [Ret (VBool false); Ret (VBool false); Ret (VBool true)])
         sample_backup Accessible.boot) = Ok true.
Proof.
  repeat (split; [reflexivity |]).
  eapply (declined_discard_restores
            (script [Ret (VBool false); Ret (VBool false); Ret (VBool true)])
            sample_backup _ (VBool false) (VBool false) Accessible.boot);
    reflexivity.
Defined.

Ltac no_restore_call :=
  let b := fresh "b" in let Hin := fresh "Hin" in
  intros b Hin; cbn in Hin;
  repeat (destruct Hin as [Hin | Hin]; [discriminate Hin |]);
  exact Hin.

(** C5. When the restore offer is turned down and the discard is confirmed
    ([showRestoreDialog]), or simply turned down ([checkForBackupRoute]),
    [clearRouteBackup] is called and [restoreFromBackup] is not; the
    dialogue resolves with [false] once the slot is cleared and the session
    state is untouched. *)
Theorem confirmed_discard_clears (env env2 : nat -> response)
    (backupData backup : value) (s : summary) (prompt : message) (v1 v2 u : value)
    (w : world Accessible.AccessibleTrackingInterface)
    (w2 : world Enhanced.EnhancedTrackingInterface) :
  truthy backupData = true ->
  typeof_object backupData = true ->
  Accessible.summarize backupData = Ok s ->
  env (clock w) = Ret v1 -> truthy v1 = false ->
  env (S (clock w)) = Ret v2 -> truthy v2 = true ->
  env2 (clock w2) = Ret backup -> truthy backup = true ->
  Enhanced.backup_prompt backup = Ok prompt ->
  env2 (S (clock w2)) = Ret u -> truthy u = false ->
  let r := Accessible.showRestoreDialog env backupData w in
  let r2 := Enhanced.checkForBackupRoute env2 w2 in
  (In ClearRouteBackup (calls (since w (snd r))) /\
   (forall b, ~ In (RestoreFromBackup b) (calls (since w (snd r)))) /\
   self (snd r) = self w /\
   (forall v3, env (S (S (clock w))) = Ret v3 ->
      fst r = Ok false /\
      calls (since w (snd r))
      = [Confirm (RestoreOffer s); Confirm (DiscardWarning s); ClearRouteBackup])) /\
  (calls (since w2 (snd r2)) = [CheckForUnsavedRoute; Confirm prompt; ClearRouteBackup] /\
   fst r2 = Ok VUndefined /\
   self (snd r2) = self w2).
Proof.
  destruct w as [o k tr], w2 as [o2 k2 tr2]. cbn [clock self].
  intros Hb Hobj Hs H1 Ht1 H2 Ht2 Hc Hbk Hp Hu Htu. cbv zeta.
  split.
  - js_unfold. rewrite Hb, Hobj, Hs. cbn.
    rewrite H1. cbn. rewrite Ht1. cbn. rewrite H2. cbn. rewrite Ht2. cbn.
    split; [| split; [| split]].
    + repeat (js_case; cbn); since_simpl; cbn; auto.
    + repeat (js_case; cbn); since_simpl; cbn [calls]; no_restore_call.
    + repeat (js_case; cbn); reflexivity.
    + intros v3 H3. rewrite H3. cbn.
      split; [reflexivity |]. since_simpl. reflexivity.
  - js_unfold. cbn. rewrite Hc. cbn. rewrite Hbk, Hp. cbn.
    rewrite Hu. cbn. rewrite Htu. cbn.
    repeat (js_case; cbn); since_simpl; repeat split.
Qed.

Lemma confirmed_discard_clears_witness :
  truthy sample_backup = true /\
  typeof_object sample_backup = true /\
  script [Ret (VBool false); Ret (VBool true)] 0 = Ret (VBool false) /\
  script [Ret (VBool false); Ret (VBool true)] 1 = Ret (VBool true) /\
  script [Ret sample_backup; Ret (VBool false)] 0 = Ret sample_backup /\
  script [Ret sample_backup; Ret (VBool false)] 1 = Ret (VBool false) /\
  Enhanced.backup_prompt sample_backup = Ok (BackupFound 2 1 1) /\
  In ClearRouteBackup
     (calls (since Accessible.boot
               (snd (Accessible.showRestoreDialog
                       (script [Ret (VBool false); Ret (VBool true)])
                       sample_backup Accessible.boot)))).
Proof.
  repeat (split; [reflexivity |]).
  eapply (confirmed_discard_clears
            (script [Ret (VBool false); Ret (VBool true)])
            (script [Ret sample_backup; Ret (VBool false)])
            sample_backup sample_backup _ _ (VBool false) (VBool true) (VBool false)
            Accessible.boot Enhanced.boot);
    reflexivity.
Defined.

(** ** Restoring a backup: failures *)

Example dialog_rejects_null :
  Accessible.showRestoreDialog (always (VBool true)) VNull Accessible.boot
  = (Ok false,
     {| self := Accessible.constructed; clock := 0;
        trace := [Console "error" (Text "Invalid backup data structure")] |}).
Proof. reflexivity. Qed.

Example dialog_rejects_non_object :
  fst (Accessible.showRestoreDialog (always (VBool true)) (VStr "route") Accessible.boot)
  = Ok false.
Proof. reflexivity. Qed.

Example dialog_survives_broken_backup :
  let r := Accessible.showRestoreDialog (always (VBool true)) broken_backup
             Accessible.boot in
  fst r = Ok false /\ calls (trace (snd r)) = [ClearRouteBackup].
Proof. cbv zeta. split; reflexivity. Qed.

Example dialog_survives_throwing_restore :
  let r :=
    Accessible.showRestoreDialog
      (script [Ret (VBool true); Raise "QuotaExceededError"; Ret VUndefined])
      sample_backup Accessible.boot in
  fst r = Ok false /\
  map (fun c => match c with Confirm _ => "confirm" | RestoreFromBackup _ => "restore"
                           | ClearRouteBackup => "clear" | _ => "other" end)
      (calls (trace (snd r)))
  = ["confirm"; "restore"; "clear"].
Proof. cbv zeta. split; reflexivity. Qed.

Example startup_survives_throwing_cleanup :
  let r :=
    Accessible.handleUnsavedRoute
      (script [Ret sample_backup; Ret (VBool true); Raise "restore failed";
               Raise "storage unavailable"])
      Accessible.boot in
  fst r = Ok VUndefined /\ self (snd r) = Accessible.constructed /\
  ~ In completion (trace (snd r)).
Proof.
  cbv zeta. repeat split. cbn. unfold completion. intros H.
  repeat (destruct H as [H | H]; [discriminate H |]). exact H.
Qed.

Example startup_without_backup :
  Accessible.handleUnsavedRoute (always VNull) Accessible.boot
  = (Ok VUndefined,
     {| self := Accessible.constructed; clock := 1;
        trace := [Called CheckForUnsavedRoute (Ret VNull)] |}).
Proof. reflexivity. Qed.

Ltac not_restored :=
  let b := fresh "b" in let x := fresh "x" in
  let Hin := fresh "Hin" in let Ht := fresh "Ht" in
  intros (b & x & Hin & Ht); cbn in Hin;
  repeat (destruct Hin as [Hin | Hin]; [congruence |]);
  exact Hin.

Ltac not_completed :=
  let Hin := fresh "Hin" in
  unfold completion; intros Hin; cbn in Hin;
  repeat (destruct Hin as [Hin | Hin]; [discriminate Hin |]);
  exact Hin.

Ltac dialog_outcome :=
  since_simpl;
  first
    [ left; split; [reflexivity |];
      eexists; eexists; split; [cbn; eauto 12 | eassumption]
    | right; left; split; [reflexivity | not_restored]
    | right; right; eexists; split; [reflexivity |];
      split;
      [ not_restored
      | match goal with
        | |- exists before, ?l = _ => exists (removelast l); reflexivity
        end ] ].

(** Every run of the dialogue ends in one of three ways. *)
Lemma showRestoreDialog_outcomes env backupData w :
  let r := Accessible.showRestoreDialog env backupData w in
  (fst r = Ok true /\ restore_succeeded (since w (snd r))) \/
  (fst r = Ok false /\ ~ restore_succeeded (since w (snd r))) \/
  (exists e, fst r = Exn e /\ ~ restore_succeeded (since w (snd r)) /\
             cleanup_failed e (since w (snd r))).
Proof.
  destruct w as [o k tr]. cbv zeta. unfold restore_succeeded, cleanup_failed.
  js_unfold.
  destruct (truthy backupData), (typeof_object backupData); cbn.
  2-4: dialog_outcome.
  destruct (Accessible.summarize backupData) as [s | e]; cbn.
  all: repeat (js_case; cbn).
  all: dialog_outcome.
Qed.

Ltac startup_outcome :=
  since_simpl;
  first
    [ right; not_completed
    | left; eexists; eexists; split; [cbn; eauto 12 | eassumption] ].

Lemma handleUnsavedRoute_returns env w :
  fst (Accessible.handleUnsavedRoute env w) = Ok VUndefined.
Proof.
  destruct w as [o k tr]. js_unfold. cbn.
  destruct (env k) as [backupData | e]; cbn; [| reflexivity].
  destruct (truthy backupData), (typeof_object backupData); cbn; try reflexivity.
  destruct (Accessible.summarize backupData) as [s | e]; cbn.
  all: repeat (js_case; cbn); reflexivity.
Qed.

Lemma handleUnsavedRoute_reports env w :
  restore_succeeded (since w (snd (Accessible.handleUnsavedRoute env w))) \/
  ~ In completion (since w (snd (Accessible.handleUnsavedRoute env w))).
Proof.
  destruct w as [o k tr]. unfold restore_succeeded.
  js_unfold. cbn.
  destruct (env k) as [backupData | e]; cbn; [| startup_outcome].
  destruct (truthy backupData), (typeof_object backupData); cbn.
  2-4: startup_outcome.
  destruct (Accessible.summarize backupData) as [s | e]; cbn.
  all: repeat (js_case; cbn).
  all: startup_outcome.
Qed.

(** C6, as stated, fails.  When [restoreFromBackup] throws and the
    [clearRouteBackup] of the dialogue's own error handler throws as well,
    the promise of [showRestoreDialog] is rejected with that second error:
    it does not resolve with a failure indicator.  Nor is a failed restore
    like a launch without backup: [handleUnsavedRoute] then shows an error
    and clears the backup slot, where a launch without backup only looks
    the backup up. *)
Lemma restore_dialog_can_reject :
  let thrown :=
    Accessible.showRestoreDialog
      (script [Ret (VBool true); Raise "restore failed"; Raise "storage unavailable"])
      sample_backup Accessible.boot in
  let failed :=
    Accessible.handleUnsavedRoute (script [Ret broken_backup; Ret VUndefined])
      Accessible.boot in
  let none := Accessible.handleUnsavedRoute (always VNull) Accessible.boot in
  fst thrown = Exn "storage unavailable" /\
  fst thrown <> Ok false /\
  calls (trace (snd failed)) = [CheckForUnsavedRoute; ClearRouteBackup] /\
  In (ErrorMessage (Text "Error during route restoration.")) (trace (snd failed)) /\
  trace (snd none) = [Called CheckForUnsavedRoute (Ret VNull)].
Proof.
  cbv zeta. repeat split; try reflexivity.
  - cbn. discriminate.
  - cbn. auto 10.
Qed.

(** C6, amended. No failure of a restore stops the startup.  Whatever the
    backup is (null, not an object, ill-formed) and whatever the
    collaborators do (return, or throw), [handleUnsavedRoute] catches what
    escapes, returns normally, leaves the interface as it was and reports a
    completed restore only if [restoreFromBackup] returned a truthy value.
    [showRestoreDialog] resolves with [true] exactly when
    [restoreFromBackup] returned a truthy value and with [false] on every
    failure, a null or non-object backup without any call; its promise is
    rejected only if the [clearRouteBackup] of its own error handler
    throws. *)
Theorem restore_failures_contained (env : nat -> response) (backupData : value)
    (w : world Accessible.AccessibleTrackingInterface) :
  let started := Accessible.handleUnsavedRoute env w in
  let r := Accessible.showRestoreDialog env backupData w in
  fst started = Ok VUndefined /\
  self (snd started) = self w /\
  (restore_succeeded (since w (snd started)) \/
   ~ In completion (since w (snd started))) /\
  ((fst r = Ok true /\ restore_succeeded (since w (snd r))) \/
   (fst r = Ok false /\ ~ restore_succeeded (since w (snd r))) \/
   (exists e, fst r = Exn e /\ ~ restore_succeeded (since w (snd r)) /\
              cleanup_failed e (since w (snd r)))) /\
  (truthy backupData && typeof_object backupData = false ->
   fst r = Ok false /\ calls (since w (snd r)) = []).
Proof.
  cbv zeta. split; [apply handleUnsavedRoute_returns |].
  split; [apply handleUnsavedRoute_preserves |].
  split; [apply handleUnsavedRoute_reports |].
  split; [apply showRestoreDialog_outcomes |].
  destruct w as [o k tr]. intros Hguard. js_unfold.
  destruct (truthy backupData), (typeof_object backupData);
    try discriminate Hguard; cbn; since_simpl; split; reflexivity.
Qed.

Lemma restore_failures_contained_witness :
  truthy VNull && typeof_object VNull = false /\
  fst (Accessible.showRestoreDialog (always (VBool true)) VNull Accessible.boot)
  = Ok false.
Proof.
  split; [reflexivity |].
  apply (restore_failures_contained (always (VBool true)) VNull Accessible.boot).
  reflexivity.
Defined.

(** * Further properties of the two interfaces *)

(** Splits on a comparison of the state with a literal. *)
Ltac js_state :=
  match goal with
  | |- context [String.eqb ?s ?t] =>
      let E := fresh "Hstate" in destruct (String.eqb s t) eqn:E
  end.

(** ** Errors of the tracking controller *)

(** X1. As long as what a collaborator throws is an error object (a
    [Raise] carries its message; a thrown [null] or [undefined], on which
    reading [error.message] fails, is not covered), the handlers that wrap
    their body in [try]/[catch] return [undefined] whatever the state and
    whatever the collaborators return or throw: no such error escapes
    [handleStartClick], [handlePlayPause], [handleSave] or
    [checkForBackupRoute]. *)
Theorem guarded_handlers_return (env : nat -> response)
    (w : world Accessible.AccessibleTrackingInterface)
    (w2 : world Enhanced.EnhancedTrackingInterface) :
  fst (Accessible.handleStartClick env w) = Ok VUndefined /\
  fst (Enhanced.handlePlayPause env w2) = Ok VUndefined /\
  fst (Enhanced.handleSave env w2) = Ok VUndefined /\
  fst (Enhanced.checkForBackupRoute env w2) = Ok VUndefined.
Proof.
  destruct w as [[st ann] k tr], w2 as [[st2 h rot] k2 tr2].
  repeat split.
  - js_unfold; cbn; repeat (js_state; cbn); repeat (js_case; cbn); reflexivity.
  - js_unfold; cbn; repeat (js_state; cbn); repeat (js_case; cbn); reflexivity.
  - js_unfold; cbn; repeat (js_state; cbn); repeat (js_case; cbn); reflexivity.
  - js_unfold; cbn. destruct (env k2) as [backup | e]; cbn; [| reflexivity].
    destruct (truthy backup); cbn; [| reflexivity].
    destruct (Enhanced.backup_prompt backup); cbn;
      repeat (js_case; cbn); reflexivity.
Qed.

(** X2. A start that throws an error object with message [e] is caught by
    [handleStartClick]: the state and every other field stay as they were
    and the screen reader is told "Failed to start tracking: " followed by
    [e].  The same holds of a resume that throws such an error.  (A thrown
    [null] or [undefined] has no message to read and is not covered.) *)
Theorem failed_start_is_announced (env : nat -> response) (e : string)
    (w : world Accessible.AccessibleTrackingInterface) :
  Accessible.state (self w) = idle \/ Accessible.state (self w) = paused ->
  env (clock w) = Raise e ->
  let r := Accessible.handleStartClick env w in
  fst r = Ok VUndefined /\
  self (snd r) = self w /\
  In (ScreenReader "polite" (Text ("Failed to start tracking: " ++ e)))
     (since w (snd r)).
Proof.
  destruct w as [[st ann] k tr]. cbn [self clock Accessible.state].
  intros [-> | ->] He; cbv zeta; js_unfold; cbn; rewrite He; cbn;
    (split; [reflexivity |]); (split; [reflexivity |]);
    since_simpl; cbn; auto 6.
Qed.

Lemma failed_start_is_announced_witness :
  (Accessible.state (self (accessible_in idle)) = idle \/
   Accessible.state (self (accessible_in idle)) = paused) /\
  script [Raise "denied"] (clock (accessible_in idle)) = Raise "denied" /\
  self (snd (Accessible.handleStartClick (script [Raise "denied"]) (accessible_in idle)))
  = self (accessible_in idle).
Proof.
  split; [left; reflexivity |].
  split; [reflexivity |].
  apply (failed_start_is_announced (script [Raise "denied"]) "denied"
           (accessible_in idle)); [left |]; reflexivity.
Defined.

(** X3. [handlePauseClick] and [handleStopClick] have no [catch]: when the
    tracking controller throws, the error leaves the handler, nothing is
    announced and the state is not changed. *)
Theorem unguarded_handlers_propagate (env : nat -> response) (e : string)
    (w : world Accessible.AccessibleTrackingInterface) :
  env (clock w) = Raise e ->
  (Accessible.state (self w) = tracking ->
   Accessible.handlePauseClick env w
   = (Exn e, {| self := self w; clock := S (clock w);
                trace := trace w ++ [Called TrackingTogglePause (Raise e)] |})) /\
  (Accessible.state (self w) = tracking \/ Accessible.state (self w) = paused ->
   Accessible.handleStopClick env w
   = (Exn e, {| self := self w; clock := S (clock w);
                trace := trace w ++ [Called TrackingStop (Raise e)] |})).
Proof.
  destruct w as [[st ann] k tr]. cbn [self clock trace Accessible.state].
  intros He. split.
  - intros ->. js_unfold. cbn. rewrite He. reflexivity.
  - intros [-> | ->]; js_unfold; cbn; rewrite He; reflexivity.
Qed.

Lemma unguarded_handlers_propagate_witness :
  script [Raise "lost"] (clock (accessible_in tracking)) = Raise "lost" /\
  Accessible.state (self (accessible_in tracking)) = tracking /\
  fst (Accessible.handlePauseClick (script [Raise "lost"]) (accessible_in tracking))
  = Exn "lost".
Proof.
  split; [reflexivity |].
  split; [reflexivity |].
  destruct (unguarded_handlers_propagate (script [Raise "lost"]) "lost"
              (accessible_in tracking) eq_refl) as [Hpause _].
  rewrite (Hpause eq_refl). reflexivity.
Defined.

(** X4. The enhanced interface changes its session state only after the
    tracking controller has returned a truthy value to the very call the
    control made; a falsy answer or an error leaves the state alone. *)
Theorem enhanced_moves_only_on_success (env : nat -> response)
    (c : Enhanced.control) (w : world Enhanced.EnhancedTrackingInterface) :
  Enhanced.state (self (Enhanced.step env w c)) <> Enhanced.state (self w) ->
  exists v, env (clock w) = Ret v /\ truthy v = true.
Proof.
  destruct w as [[st h rot] k tr]. cbn [self clock Enhanced.state].
  destruct c; js_unfold; cbn; repeat (js_state; cbn); repeat (js_case; cbn);
    intros Hmoved; try (exfalso; apply Hmoved; reflexivity);
    eexists; split; eauto.
Qed.

Lemma enhanced_moves_only_on_success_witness :
  Enhanced.state (self (Enhanced.step (always (VBool true)) (enhanced_in idle)
                          Enhanced.PlayPause))
  <> Enhanced.state (self (enhanced_in idle)) /\
  exists v, always (VBool true) (clock (enhanced_in idle)) = Ret v /\ truthy v = true.
Proof.
  assert (H : Enhanced.state (self (Enhanced.step (always (VBool true))
                                      (enhanced_in idle) Enhanced.PlayPause))
              <> Enhanced.state (self (enhanced_in idle))) by (cbn; discriminate).
  split; [exact H |].
  exact (enhanced_moves_only_on_success (always (VBool true)) Enhanced.PlayPause
           (enhanced_in idle) H).
Defined.

(** X5. The accessible interface moves on any answer: once the tracking
    controller's call returns, whatever value it returns, start leads from
    idle to tracking, pause from tracking to paused, resume from paused to
    tracking and stop from tracking or paused to idle. *)
Theorem accessible_moves_on_any_answer (env : nat -> response) (v : value)
    (w : world Accessible.AccessibleTrackingInterface) :
  env (clock w) = Ret v ->
  (Accessible.state (self w) = idle ->
   Accessible.state (self (Accessible.step env w Accessible.StartClick)) = tracking) /\
  (Accessible.state (self w) = paused ->
   Accessible.state (self (Accessible.step env w Accessible.StartClick)) = tracking) /\
  (Accessible.state (self w) = tracking ->
   Accessible.state (self (Accessible.step env w Accessible.PauseClick)) = paused) /\
  (Accessible.state (self w) = tracking \/ Accessible.state (self w) = paused ->
   Accessible.state (self (Accessible.step env w Accessible.StopClick)) = idle).
Proof.
  destruct w as [[st ann] k tr]. cbn [self clock Accessible.state].
  intros Hv. repeat split.
  - intros ->. js_unfold. cbn. rewrite Hv. reflexivity.
  - intros ->. js_unfold. cbn. rewrite Hv. reflexivity.
  - intros ->. js_unfold. cbn. rewrite Hv. reflexivity.
  - intros [-> | ->]; js_unfold; cbn; rewrite Hv; reflexivity.
Qed.

Lemma accessible_moves_on_any_answer_witness :
  always (VBool false) (clock (accessible_in tracking)) = Ret (VBool false) /\
  Accessible.state (self (accessible_in tracking)) = tracking /\
  Accessible.state
    (self (Accessible.step (always (VBool false)) (accessible_in tracking)
             Accessible.PauseClick)) = paused.
Proof.
  split; [reflexivity |].
  split; [reflexivity |].
  destruct (accessible_moves_on_any_answer (always (VBool false)) (VBool false)
              (accessible_in tracking) eq_refl) as (_ & _ & Hpause & _).
  exact (Hpause eq_refl).
Defined.

(** X6. Pausing and resuming through the play/pause button brings the
    enhanced interface back to where it was: from ['tracking'], two presses
    answered with truthy values leave every field as before. *)
Theorem pause_resume_round_trip (env : nat -> response) (v1 v2 : value)
    (w : world Enhanced.EnhancedTrackingInterface) :
  Enhanced.state (self w) = tracking ->
  env (clock w) = Ret v1 -> truthy v1 = true ->
  env (S (clock w)) = Ret v2 -> truthy v2 = true ->
  let w1 := Enhanced.step env w Enhanced.PlayPause in
  let w2 := Enhanced.step env w1 Enhanced.PlayPause in
  Enhanced.state (self w1) = paused /\
  self w2 = self w /\
  calls (since w w2) = [TrackingTogglePause; TrackingTogglePause].
Proof.
  destruct w as [[st h rot] k tr]. cbn [self clock Enhanced.state].
  intros -> H1 Ht1 H2 Ht2. cbv zeta. js_unfold. cbn.
  rewrite H1. cbn. rewrite Ht1. cbn. rewrite H2. cbn. rewrite Ht2. cbn.
  repeat split. since_simpl. reflexivity.
Qed.

Lemma pause_resume_round_trip_witness :
  Enhanced.state (self (enhanced_in tracking)) = tracking /\
  always (VBool true) 0%nat = Ret (VBool true) /\
  truthy (VBool true) = true /\
  self (Enhanced.step (always (VBool true))
          (Enhanced.step (always (VBool true)) (enhanced_in tracking) Enhanced.PlayPause)
          Enhanced.PlayPause)
  = self (enhanced_in tracking).
Proof.
  split; [reflexivity |].
  split; [reflexivity |].
  split; [reflexivity |].
  apply (pause_resume_round_trip (always (VBool true)) (VBool true) (VBool true)
           (enhanced_in tracking)); reflexivity.
Defined.

(** ** Backups that cannot be read *)

Lemma backup_prompt_needs_route (backup : value) :
  get backup "routeData" = VUndefined ->
  Enhanced.backup_prompt backup
  = Exn "Cannot read properties of undefined (reading 'filter')".
Proof.
  intros H. unfold Enhanced.backup_prompt, Enhanced.count_points.
  rewrite H. reflexivity.
Qed.

(** X7. When the prompt of [checkForBackupRoute] cannot be built (route
    data missing or not a sequence, a null point, a distance that is not a
    number), the enhanced tracker asks nothing, restores nothing and does
    not clear the backup: its only call is the look-up, the error goes to
    the console and the interface is unchanged. *)
Theorem unreadable_backup_is_kept (env : nat -> response) (backup : value)
    (e : string) (w : world Enhanced.EnhancedTrackingInterface) :
  env (clock w) = Ret backup ->
  truthy backup = true ->
  Enhanced.backup_prompt backup = Exn e ->
  let r := Enhanced.checkForBackupRoute env w in
  fst r = Ok VUndefined /\
  self (snd r) = self w /\
  since w (snd r)
  = [Console "log" (Text "Checking for unsaved route backup...");
     Called CheckForUnsavedRoute (Ret backup);
     Console "error" (Text ("Error checking for backup: " ++ e))].
Proof.
  destruct w as [o k tr]. cbn [self clock].
  intros Hb Ht Hp. cbv zeta. js_unfold. cbn.
  rewrite Hb. cbn. rewrite Ht, Hp. cbn.
  repeat split. since_simpl. reflexivity.
Qed.

Lemma unreadable_backup_is_kept_witness :
  script [Ret (VObj [("totalDistance", VNum 1)])] (clock Enhanced.boot)
  = Ret (VObj [("totalDistance", VNum 1)]) /\
  truthy (VObj [("totalDistance", VNum 1)]) = true /\
  Enhanced.backup_prompt (VObj [("totalDistance", VNum 1)])
  = Exn "Cannot read properties of undefined (reading 'filter')" /\
  calls (since Enhanced.boot
           (snd (Enhanced.checkForBackupRoute
                   (script [Ret (VObj [("totalDistance", VNum 1)])]) Enhanced.boot)))
  = [CheckForUnsavedRoute].
Proof.
  split; [reflexivity |].
  split; [reflexivity |].
  split; [reflexivity |].
  destruct (unreadable_backup_is_kept
              (script [Ret (VObj [("totalDistance", VNum 1)])])
              (VObj [("totalDistance", VNum 1)])
              "Cannot read properties of undefined (reading 'filter')" Enhanced.boot
              eq_refl eq_refl eq_refl) as (_ & _ & Hsince).
  rewrite Hsince. reflexivity.
Defined.

(** X8. When the figures of the restore dialogue cannot be computed (route
    data that is not a sequence, a distance that is not a number),
    [showRestoreDialog] never asks the user: it reports an error, calls
    [clearRouteBackup] and, once that returns, resolves with [false]. *)
Theorem unreadable_backup_is_cleared (env : nat -> response) (backupData : value)
    (e : string) (w : world Accessible.AccessibleTrackingInterface) :
  truthy backupData = true ->
  typeof_object backupData = true ->
  Accessible.summarize backupData = Exn e ->
  let r := Accessible.showRestoreDialog env backupData w in
  calls (since w (snd r)) = [ClearRouteBackup] /\
  In (ErrorMessage (Text "Error during route restoration.")) (since w (snd r)) /\
  (forall v, env (clock w) = Ret v -> fst r = Ok false).
Proof.
  destruct w as [o k tr]. cbn [self clock].
  intros Hb Hobj Hs. cbv zeta. js_unfold. rewrite Hb, Hobj, Hs. cbn.
  split; [| split].
  - js_case; cbn; since_simpl; reflexivity.
  - js_case; cbn; since_simpl; cbn; auto.
  - intros v Hv. rewrite Hv. reflexivity.
Qed.

Lemma unreadable_backup_is_cleared_witness :
  truthy broken_backup = true /\
  typeof_object broken_backup = true /\
  Accessible.summarize broken_backup = Exn "routeData.filter is not a function" /\
  calls (since Accessible.boot
           (snd (Accessible.showRestoreDialog (always VUndefined) broken_backup
                   Accessible.boot)))
  = [ClearRouteBackup].
Proof.
  split; [reflexivity |].
  split; [reflexivity |].
  split; [reflexivity |].
  apply (unreadable_backup_is_cleared (always VUndefined) broken_backup
           "routeData.filter is not a function" Accessible.boot); reflexivity.
Defined.

(** ** What the two prompts count *)

Lemma has_type_exclusive (p : value) (s t : string) :
  has_type s p = true -> has_type t p = true -> s = t.
Proof.
  unfold has_type. destruct (get p "type"); try discriminate.
  intros Hs Ht. apply String.eqb_eq in Hs, Ht. congruence.
Qed.

Lemma counts_bounded (items : list value) :
  (count (fun p => truthy p && has_type "location" p) items
   + count (fun p => truthy p && has_type "photo" p) items
   + count (fun p => truthy p && has_type "text" p) items
   <= List.length items)%nat.
Proof.
  unfold count. induction items as [| p items IH]; [cbn; lia |].
  cbn [filter List.length].
  destruct (truthy p); cbn [andb]; [| cbn; lia].
  destruct (has_type "location" p) eqn:H1, (has_type "photo" p) eqn:H2,
    (has_type "text" p) eqn:H3; cbn [List.length];
    try (pose proof (has_type_exclusive _ _ _ H1 H2); discriminate);
    try (pose proof (has_type_exclusive _ _ _ H1 H3); discriminate);
    try (pose proof (has_type_exclusive _ _ _ H2 H3); discriminate);
    lia.
Qed.

Lemma has_type_truthy (t : string) (p : value) :
  has_type t p = true -> truthy p = true.
Proof. destruct p; cbn; try discriminate; reflexivity. Qed.

Lemma count_type_agrees (t : string) (items : list value) (n : nat) :
  Enhanced.count_type t items = Ok n ->
  n = count (fun p => truthy p && has_type t p) items.
Proof.
  unfold count. revert n. induction items as [| p items IH]; intros n H.
  - cbn in H. now inversion H.
  - assert (Hf : truthy p && has_type t p = has_type t p).
    { destruct (has_type t p) eqn:E;
        [rewrite (has_type_truthy _ _ E); reflexivity | apply andb_false_r]. }
    cbn [Enhanced.count_type] in H. cbn [filter]. rewrite Hf.
    destruct (Enhanced.count_type t items) as [m | e].
    + specialize (IH m eq_refl).
      destruct (has_type t p);
        destruct p; try discriminate H; inversion H; subst; reflexivity.
    + destruct p; discriminate H.
Qed.

(** X9. The three figures of a restore prompt never add up to more than
    the number of recorded points: a point is counted under one kind at
    most, and [null] entries and entries of another kind under none.  On a
    backup both interfaces can read, [checkForBackupRoute] quotes the
    numbers of GPS points, photos and notes that [showRestoreDialog]
    quotes. *)
Theorem prompts_count_alike (backupData : value) (items : list value) (s : summary)
    (prompt : message) :
  get backupData "routeData" = VArr items ->
  Accessible.summarize backupData = Ok s ->
  Enhanced.backup_prompt backupData = Ok prompt ->
  (locationPoints s + photos s + notes s <= List.length items)%nat /\
  prompt = BackupFound (locationPoints s) (photos s) (notes s).
Proof.
  intros Hr Hs Hp.
  unfold Accessible.summarize, or_else in Hs. rewrite Hr in Hs. cbn [truthy] in Hs.
  destruct (if truthy (get backupData "totalDistance")
            then get backupData "totalDistance" else VNum 0);
    try discriminate Hs.
  inversion Hs; subst; clear Hs. cbn [locationPoints photos notes].
  split; [apply counts_bounded |].
  unfold Enhanced.backup_prompt, Enhanced.count_points in Hp. rewrite Hr in Hp.
  destruct (Enhanced.count_type "location" items) as [a |] eqn:Ha; [| discriminate].
  destruct (Enhanced.count_type "photo" items) as [b |] eqn:Hb; [| discriminate].
  destruct (Enhanced.count_type "text" items) as [c |] eqn:Hc; [| discriminate].
  destruct (Enhanced.distance_text_ok backupData); [| discriminate].
  inversion Hp; subst; clear Hp.
  now rewrite (count_type_agrees _ _ _ Ha), (count_type_agrees _ _ _ Hb),
    (count_type_agrees _ _ _ Hc).
Qed.

Lemma prompts_count_alike_witness :
  get sample_backup "routeData"
  = VArr [location_point (321 # 10) (347 # 10);
          VObj [("type", VStr "photo"); ("content", VStr "img-1")];
          location_point (322 # 10) (347 # 10);
          VObj [("type", VStr "text"); ("content", VStr "steep ramp")]] /\
  Enhanced.backup_prompt sample_backup = Ok (BackupFound 2 1 1) /\
  BackupFound 2 1 1 = BackupFound 2 1 1.
Proof.
  split; [reflexivity |].
  split; [reflexivity |].
  apply (prompts_count_alike sample_backup _ _ (BackupFound 2 1 1)
           eq_refl eq_refl eq_refl).
Defined.

(** X10. The timer is set from a backup only after that backup has been
    restored: any [setElapsedTime] call of [checkForBackupRoute] carries the
    truthy [elapsedTime] of the backup found and follows a
    [restoreFromBackup] of the same backup that returned a truthy value. *)
Theorem timer_follows_restore (env : nat -> response) (t : value) (answer : response)
    (w : world Enhanced.EnhancedTrackingInterface) :
  In (Called (SetElapsedTime t) answer)
     (since w (snd (Enhanced.checkForBackupRoute env w))) ->
  exists backup v,
    env (clock w) = Ret backup /\
    In (Called (RestoreFromBackup backup) (Ret v))
       (since w (snd (Enhanced.checkForBackupRoute env w))) /\
    truthy v = true /\
    t = get backup "elapsedTime" /\ truthy t = true.
Proof.
  destruct w as [o k tr]. cbn [self clock]. js_unfold. cbn.
  destruct (env k) as [backup | e] eqn:Hb; cbn.
  2: { since_simpl. intros Hin. cbn in Hin.
       repeat (destruct Hin as [Hin | Hin]; [discriminate Hin |]). destruct Hin. }
  destruct (truthy backup); cbn.
  2: { since_simpl. intros Hin. cbn in Hin.
       repeat (destruct Hin as [Hin | Hin]; [discriminate Hin |]). destruct Hin. }
  destruct (Enhanced.backup_prompt backup); cbn; repeat (js_case; cbn);
    since_simpl; intros Hin; cbn in Hin;
    repeat (destruct Hin as [Hin | Hin]; [try discriminate Hin |]);
    try contradiction;
    inversion Hin; subst;
    exists backup; eexists; (split; [reflexivity |]);
    (split; [cbn; eauto 12 |]); repeat split;
    first [assumption | reflexivity].
Qed.

Lemma timer_follows_restore_witness :
  In (Called (SetElapsedTime (VNum 90000)) (Ret VUndefined))
     (since Enhanced.boot
        (snd (Enhanced.checkForBackupRoute
                (script [Ret sample_backup; Ret (VBool true); Ret (VBool true)])
                Enhanced.boot))) /\
  exists backup v,
    script [Ret sample_backup; Ret (VBool true); Ret (VBool true)] (clock Enhanced.boot)
    = Ret backup /\
    In (Called (RestoreFromBackup backup) (Ret v))
       (since Enhanced.boot
          (snd (Enhanced.checkForBackupRoute
                  (script [Ret sample_backup; Ret (VBool true); Ret (VBool true)])
                  Enhanced.boot))) /\
    truthy v = true /\
    VNum 90000 = get backup "elapsedTime" /\ truthy (VNum 90000) = true.
Proof.
  assert (H : In (Called (SetElapsedTime (VNum 90000)) (Ret VUndefined))
                (since Enhanced.boot
                   (snd (Enhanced.checkForBackupRoute
                           (script [Ret sample_backup; Ret (VBool true); Ret (VBool true)])
                           Enhanced.boot)))).
  { cbn. auto 12. }
  split; [exact H |].
  exact (timer_follows_restore _ _ _ _ H).
Defined.

(** ** The compass text *)




(** ** What the buttons show and what they do *)

Example painted_tracking :
  option_map Page.stateIndicator_text
    (Page.updateAccessibleUI "tracking"
       (Some {| Page.startBtn_className := ""; Page.startBtn_text := "";
                Page.startBtn_label := ""; Page.pauseBtn_disabled := true;
                Page.stopBtn_disabled := true;
                Page.stateIndicator_className := "";
                Page.stateIndicator_text := "" |}))
  = Some "Tracking".
Proof. reflexivity. Qed.

(** X12. [updateAccessibleUI] disables exactly the buttons that would do
    nothing: in each of the three states the pause button is enabled if and
    only if [handlePauseClick] calls the tracking controller, and the stop
    button if and only if [handleStopClick] does. *)
Theorem disabled_buttons_do_nothing (env : nat -> response) (c : Page.controls)
    (w : world Accessible.AccessibleTrackingInterface) :
  valid (Accessible.state (self w)) ->
  exists shown,
    Page.updateAccessibleUI (Accessible.state (self w)) (Some c) = Some shown /\
    calls (since w (snd (Accessible.handlePauseClick env w)))
    = (if Page.pauseBtn_disabled shown then [] else [TrackingTogglePause]) /\
    calls (since w (snd (Accessible.handleStopClick env w)))
    = (if Page.stopBtn_disabled shown then [] else [TrackingStop]).
Proof.
  destruct w as [[st ann] k tr]. cbn [self Accessible.state].
  intros [-> | [-> | ->]]; eexists; (split; [reflexivity |]);
    cbn [Page.pauseBtn_disabled Page.stopBtn_disabled];
    split; js_run; since_simpl; reflexivity.
Qed.

Lemma disabled_buttons_do_nothing_witness :
  valid (Accessible.state (self (accessible_in paused))) /\
  calls (since (accessible_in paused)
           (snd (Accessible.handlePauseClick (always VUndefined) (accessible_in paused))))
  = [].
Proof.
  assert (Hv : valid (Accessible.state (self (accessible_in paused))))
    by (right; right; reflexivity).
  split; [exact Hv |].
  destruct (disabled_buttons_do_nothing (always VUndefined)
              {| Page.startBtn_className := ""; Page.startBtn_text := "";
                 Page.startBtn_label := ""; Page.pauseBtn_disabled := false;
                 Page.stopBtn_disabled := false;
                 Page.stateIndicator_className := "";
                 Page.stateIndicator_text := "" |}
              (accessible_in paused) Hv) as (shown & Hshown & Hpause & _).
  cbn in Hshown. inversion Hshown; subst. exact Hpause.
Defined.

(** X13. While tracking, the primary button is labelled "Pause tracking",
    but its handler [handleStartClick] only repaints: it calls no
    collaborator, announces nothing and leaves the state ['tracking']. *)
Theorem primary_button_does_not_pause (env : nat -> response) (c : Page.controls)
    (w : world Accessible.AccessibleTrackingInterface) :
  Accessible.state (self w) = tracking ->
  option_map Page.startBtn_label
    (Page.updateAccessibleUI (Accessible.state (self w)) (Some c))
  = Some "Pause tracking" /\
  Accessible.handleStartClick env w
  = (Ok VUndefined,
     {| self := self w; clock := clock w;
        trace := trace w ++ [Dom "primary-button tracking"] |}).
Proof.
  destruct w as [[st ann] k tr]. cbn [self clock trace Accessible.state].
  intros ->. split; reflexivity.
Qed.

Lemma primary_button_does_not_pause_witness :
  Accessible.state (self (accessible_in tracking)) = tracking /\
  Accessible.state
    (self (snd (Accessible.handleStartClick (always (VBool true))
                  (accessible_in tracking)))) = tracking.
Proof.
  split; [reflexivity |].
  destruct (primary_button_does_not_pause (always (VBool true))
              {| Page.startBtn_className := ""; Page.startBtn_text := "";
                 Page.startBtn_label := ""; Page.pauseBtn_disabled := false;
                 Page.stopBtn_disabled := false;
                 Page.stateIndicator_className := "";
                 Page.stateIndicator_text := "" |}
              (accessible_in tracking) eq_refl) as [_ Hrun].
  rewrite Hrun. reflexivity.
Defined.

(** ** Panels *)

Example toggle_opens_one_panel :
  map Page.hidden
    (Page.togglePanel "export"
       [{| Page.id := "menu"; Page.bottom_popup := true; Page.hidden := false;
           Page.aria_expanded := Some "true" |};
        {| Page.id := "export"; Page.bottom_popup := true; Page.hidden := true;
           Page.aria_expanded := None |};
        {| Page.id := "map"; Page.bottom_popup := false; Page.hidden := false;
           Page.aria_expanded := None |}])
  = [true; false; false].
Proof. reflexivity. Qed.

Lemma in_update_first (panelId : string) (f : Page.element -> Page.element)
    (doc : list Page.element) (p : Page.element) :
  In p (Page.update_first panelId f doc) ->
  In p doc \/ exists q, In q doc /\ Page.id q = panelId /\ p = f q.
Proof.
  induction doc as [| a doc IH]; cbn; [tauto |].
  destruct (String.eqb_spec (Page.id a) panelId) as [E | E]; cbn.
  - intros [<- | H]; [right; exists a; auto | left; auto].
  - intros [<- | H]; [left; auto |].
    destruct (IH H) as [H1 | (q & Hq & Hid & ->)]; [left; auto |].
    right. exists q. auto.
Qed.

Lemma first_with_update (panelId : string) (f : Page.element -> Page.element)
    (doc : list Page.element) :
  (forall q, Page.id (f q) = Page.id q) ->
  Page.first_with panelId (Page.update_first panelId f doc)
  = option_map f (Page.first_with panelId doc).
Proof.
  intros Hid. induction doc as [| a doc IH]; [reflexivity |]. cbn.
  destruct (String.eqb_spec (Page.id a) panelId) as [E | E]; cbn.
  - rewrite Hid, E, String.eqb_refl. reflexivity.
  - destruct (String.eqb_spec (Page.id a) panelId); [contradiction | exact IH].
Qed.

Lemma first_with_map (panelId : string) (g : Page.element -> Page.element)
    (doc : list Page.element) :
  (forall q, Page.id (g q) = Page.id q) ->
  Page.first_with panelId (map g doc) = option_map g (Page.first_with panelId doc).
Proof.
  intros Hid. induction doc as [| a doc IH]; [reflexivity |]. cbn.
  rewrite Hid. destruct (Page.id a =? panelId); [reflexivity | exact IH].
Qed.

Lemma first_with_id (panelId : string) (doc : list Page.element) (t : Page.element) :
  Page.first_with panelId doc = Some t -> Page.id t = panelId /\ In t doc.
Proof.
  induction doc as [| a doc IH]; [discriminate |]. cbn.
  destruct (String.eqb_spec (Page.id a) panelId) as [E | E].
  - intros H. inversion H; subst. auto.
  - intros H. destruct (IH H). auto.
Qed.

(** What [togglePanel] does to the panel it names. *)
Lemma togglePanel_target (panelId : string) (doc : list Page.element) :
  Page.getElementById panelId (Page.togglePanel panelId doc)
  = option_map Page.flip (Page.getElementById panelId doc).
Proof.
  unfold Page.getElementById, Page.togglePanel, Page.update.
  destruct (panelId =? "") eqn:Hempty; [reflexivity |].
  rewrite first_with_update by reflexivity.
  rewrite first_with_map.
  - destruct (Page.first_with panelId doc) as [t |] eqn:Ht; [| reflexivity].
    destruct (first_with_id _ _ _ Ht) as [Hid _]. cbn.
    rewrite Hid, String.eqb_refl, andb_false_r. reflexivity.
  - intros q. destruct (Page.bottom_popup q && negb (Page.id q =? panelId));
      reflexivity.
Qed.

(** X14. After [togglePanel] every bottom pop-up other than the one named
    is hidden and marked collapsed, and the [aria-expanded] attribute of the
    named element agrees with its visibility. *)
Theorem togglePanel_shows_one_panel (panelId : string) (doc : list Page.element) :
  (forall p, In p (Page.togglePanel panelId doc) ->
     Page.bottom_popup p = true -> Page.id p <> panelId ->
     Page.hidden p = true /\ Page.aria_expanded p = Some "false") /\
  (forall t, Page.getElementById panelId (Page.togglePanel panelId doc) = Some t ->
     Page.aria_expanded t = Some (if Page.hidden t then "false" else "true")).
Proof.
  split.
  - intros p Hin Hpopup Hid.
    assert (Hmap : In p (map (fun panel =>
                     if Page.bottom_popup panel && negb (Page.id panel =? panelId)
                     then Page.collapse panel else panel) doc)).
    { unfold Page.togglePanel, Page.update in Hin.
      destruct (panelId =? ""); [exact Hin |].
      destruct (in_update_first _ _ _ _ Hin) as [H | (q & _ & Hq & ->)];
        [exact H | contradiction]. }
    apply in_map_iff in Hmap. destruct Hmap as (q & Hq & _).
    destruct (Page.bottom_popup q && negb (Page.id q =? panelId)) eqn:Hc;
      subst p; [split; reflexivity |].
    exfalso. rewrite Hpopup in Hc. cbn in Hc.
    apply negb_false_iff, String.eqb_eq in Hc. contradiction.
  - intros t Ht. rewrite togglePanel_target in Ht.
    destruct (Page.getElementById panelId doc) as [q |]; [| discriminate].
    inversion Ht; subst. cbn. destruct (Page.hidden q); reflexivity.
Qed.

Lemma togglePanel_shows_one_panel_witness :
  Page.getElementById "export"
    (Page.togglePanel "export"
       [{| Page.id := "export"; Page.bottom_popup := true; Page.hidden := true;
           Page.aria_expanded := None |}])
  = Some {| Page.id := "export"; Page.bottom_popup := true; Page.hidden := false;
            Page.aria_expanded := Some "true" |} /\
  Page.aria_expanded
    {| Page.id := "export"; Page.bottom_popup := true; Page.hidden := false;
       Page.aria_expanded := Some "true" |}
  = Some "true".
Proof.
  split; [reflexivity |].
  destruct (togglePanel_shows_one_panel "export"
              [{| Page.id := "export"; Page.bottom_popup := true; Page.hidden := true;
                  Page.aria_expanded := None |}]) as [_ Htarget].
  exact (Htarget _ eq_refl).
Defined.

(** X15. [togglePanel] flips the visibility of the element it names, so
    calling it twice with the same name leaves that element as visible as
    it was. *)
Theorem togglePanel_twice (panelId : string) (doc : list Page.element) :
  option_map Page.hidden (Page.getElementById panelId (Page.togglePanel panelId doc))
  = option_map (fun t => negb (Page.hidden t)) (Page.getElementById panelId doc) /\
  option_map Page.hidden
    (Page.getElementById panelId
       (Page.togglePanel panelId (Page.togglePanel panelId doc)))
  = option_map Page.hidden (Page.getElementById panelId doc).
Proof.
  rewrite !togglePanel_target.
  destruct (Page.getElementById panelId doc) as [t |]; [| split; reflexivity].
  cbn. rewrite negb_involutive. split; reflexivity.
Qed.

(** X16. When the quick menu exists, [toggleQuickMenu] leaves no bottom
    pop-up visible except the menu itself; a hidden menu is opened and
    announced as opened, a visible menu that is a bottom pop-up is hidden
    and announced as closed. *)
Theorem quick_menu_toggles (doc : list Page.element) (menu : Page.element) :
  Page.getElementById "quickActionsPanel" doc = Some menu ->
  let doc' := fst (Page.toggleQuickMenu doc) in
  let said := snd (Page.toggleQuickMenu doc) in
  (forall p, In p doc' -> Page.bottom_popup p = true -> Page.hidden p = false ->
     Page.id p = "quickActionsPanel") /\
  (Page.hidden menu = true ->
   said = Some "Quick menu opened" /\
   option_map Page.hidden (Page.getElementById "quickActionsPanel" doc') = Some false) /\
  (Page.hidden menu = false ->
   said = Some "Quick menu closed" /\
   (Page.bottom_popup menu = true ->
    option_map Page.hidden (Page.getElementById "quickActionsPanel" doc')
    = Some true)).
Proof.
  intros Hmenu. cbv zeta. unfold Page.toggleQuickMenu. rewrite Hmenu.
  assert (Hhide : forall p, In p (Page.hideAllPanels doc) ->
            Page.bottom_popup p = true -> Page.hidden p = true).
  { intros p Hin Hp. unfold Page.hideAllPanels in Hin.
    apply in_map_iff in Hin. destruct Hin as (q & <- & _).
    destruct (Page.bottom_popup q) eqn:Hq; [reflexivity |].
    rewrite Hq in Hp. discriminate. }
  assert (Hfound : Page.first_with "quickActionsPanel" (Page.hideAllPanels doc)
                   = Some (if Page.bottom_popup menu then Page.collapse menu else menu)).
  { unfold Page.hideAllPanels. rewrite first_with_map.
    - unfold Page.getElementById in Hmenu. cbn in Hmenu. now rewrite Hmenu.
    - intros q. destruct (Page.bottom_popup q); reflexivity. }
  destruct (Page.hidden menu) eqn:Hh; cbn [fst snd]; split.
  - intros p Hin Hp Hv. unfold Page.update in Hin. cbn in Hin.
    destruct (in_update_first _ _ _ _ Hin) as [H | (q & Hq & Hid & ->)].
    + rewrite (Hhide p H Hp) in Hv. discriminate.
    + exact Hid.
  - split; [| intros H; discriminate H].
    intros _. split; [reflexivity |].
    unfold Page.getElementById, Page.update. cbn [String.eqb Ascii.eqb].
    cbn -[Page.first_with Page.update_first Page.hideAllPanels].
    rewrite first_with_update by reflexivity. rewrite Hfound. reflexivity.
  - intros p Hin Hp Hv. rewrite (Hhide p Hin Hp) in Hv. discriminate.
  - split; [intros H; discriminate H |].
    intros _. split; [reflexivity |]. intros Hp.
    unfold Page.getElementById.
    cbn -[Page.first_with Page.hideAllPanels].
    rewrite Hfound, Hp. reflexivity.
Qed.

Lemma quick_menu_toggles_witness :
  Page.getElementById "quickActionsPanel"
    [{| Page.id := "quickActionsPanel"; Page.bottom_popup := true;
        Page.hidden := true; Page.aria_expanded := None |}]
  = Some {| Page.id := "quickActionsPanel"; Page.bottom_popup := true;
            Page.hidden := true; Page.aria_expanded := None |} /\
  snd (Page.toggleQuickMenu
         [{| Page.id := "quickActionsPanel"; Page.bottom_popup := true;
             Page.hidden := true; Page.aria_expanded := None |}])
  = Some "Quick menu opened".
Proof.
  split; [reflexivity |].
  destruct (quick_menu_toggles
              [{| Page.id := "quickActionsPanel"; Page.bottom_popup := true;
                  Page.hidden := true; Page.aria_expanded := None |}]
              _ eq_refl) as (_ & Hopen & _).
  exact (proj1 (Hopen eq_refl)).
Defined.

(** ** Waiting for the state controller *)

Example wait_when_ready :
  Startup.waitForStateController (fun _ => Some (VBool true)) = (0%nat, 0%nat).
Proof. reflexivity. Qed.

Example wait_when_opening :
  Startup.waitForStateController
    (fun k => if (k <? 3)%nat then None else Some (VBool false))
  = (800%nat, 3%nat).
Proof. reflexivity. Qed.

Lemma poll_bounds (see : Startup.sightings) (remaining : nat) : forall attempts,
  let slept := fst (Startup.poll see remaining attempts) in
  let n := snd (Startup.poll see remaining attempts) in
  (n = attempts + remaining /\ slept = 100 * remaining)%nat \/
  (attempts <= n < attempts + remaining /\ slept <= 100 * (n - attempts) + 500)%nat.
Proof.
  induction remaining as [| r IH]; intros attempts; cbn [Startup.poll].
  - left. cbn. lia.
  - assert (Hnext :
      let slept := fst (let (slept, n) := Startup.poll see r (S attempts) in
                        ((100 + slept)%nat, n)) in
      let n := snd (let (slept, n) := Startup.poll see r (S attempts) in
                    ((100 + slept)%nat, n)) in
      (n = attempts + S r /\ slept = 100 * S r)%nat \/
      (attempts <= n < attempts + S r /\ slept <= 100 * (n - attempts) + 500)%nat).
    { specialize (IH (S attempts)). cbv zeta in IH.
      destruct (Startup.poll see r (S attempts)) as [s n]. cbn [fst snd] in *.
      destruct IH as [[Hn Hs] | [Hn Hs]]; [left | right]; split; lia. }
    destruct (see attempts) as [[| | [|] | | | | |] |]; cbn [fst snd];
      try exact Hnext; right; split; lia.
Qed.

(** X17. [waitForStateController] always comes back: it looks at the state
    controller at most ten times and sleeps at most 1400 ms in all, exactly
    1000 ms when the controller never shows a [dbReady] flag. *)
Theorem waitForStateController_is_bounded (see : Startup.sightings) :
  let slept := fst (Startup.waitForStateController see) in
  let attempts := snd (Startup.waitForStateController see) in
  (slept <= 1400)%nat /\ (attempts <= 10)%nat /\
  (attempts = 10%nat -> slept = 1000%nat).
Proof.
  cbv zeta. unfold Startup.waitForStateController, Startup.maxAttempts.
  pose proof (poll_bounds see 10 0) as H. cbv zeta in H.
  destruct H as [[Hn Hs] | [Hn Hs]]; repeat split; lia.
Qed.

Lemma waitForStateController_is_bounded_witness :
  snd (Startup.waitForStateController (fun _ => None)) = 10%nat /\
  fst (Startup.waitForStateController (fun _ => None)) = 1000%nat.
Proof.
  split; [reflexivity |].
  apply (waitForStateController_is_bounded (fun _ => None)). reflexivity.
Defined.

(** ** Keyboard shortcuts *)

Ltac page_unfold :=
  unfold Keys.keydown_listener, Keys.openAccessibilityForm, Keys.addTextNote,
    Keys.hideAllPanels, Keys.toggleQuickMenu, Keys.preventDefault,
    Keys.announce, Keys.set_document, Keys.on_ui,
    Rotation.occur, Rotation.orientation_event,
    Rotation.keydown_listener, Rotation.toggleMapRotation,
    Rotation.openAccessibilityForm, Rotation.closeAccessibilityForm,
    Rotation.takePhoto, Rotation.addTextNote, Rotation.preventDefault,
    Rotation.disconnectFromCompassController,
    Rotation.connectToCompassController, Rotation.set_rotation,
    Rotation.on_iface, Enhanced.handleOrientationChange,
    Enhanced.updateCompassDisplay, Enhanced.set_heading,
    zoom, unawaited, external;
  js_unfold.

Example escape_stops_and_hides :
  let w := snd (Keys.keydown_listener (always VUndefined)
                  {| Keys.key := "Escape"; Keys.tagName := "BODY";
                     Keys.isContentEditable := false;
                     Keys.ctrlKey := false; Keys.metaKey := false |}
                  {| self := {| Keys.ui := {| Accessible.state := tracking;
                                              Accessible.announcements := [] |};
                                Keys.document :=
                                  [{| Page.id := "menu"; Page.bottom_popup := true;
                                      Page.hidden := false;
                                      Page.aria_expanded := None |}] |};
                     clock := 0; trace := [] |}) in
  Accessible.state (Keys.ui (self w)) = idle /\
  map Page.hidden (Keys.document (self w)) = [true].
Proof. cbv zeta. split; reflexivity. Qed.

(** X18. Keys pressed while typing are not shortcuts: with the focus in an
    [INPUT] or a [TEXTAREA] (for the accessible interface also in an
    editable element) the key listeners do nothing at all. *)
Theorem typing_is_not_a_shortcut (fl : Q -> Q) (env : nat -> response)
    (e : Keys.keydown) (w : world Keys.AccessiblePage)
    (w2 : world Rotation.EnhancedPage) :
  (Keys.tagName e = "INPUT" \/ Keys.tagName e = "TEXTAREA" \/
   Keys.isContentEditable e = true ->
   Keys.keydown_listener env e w = (Ok VUndefined, w)) /\
  (Keys.tagName e = "INPUT" \/ Keys.tagName e = "TEXTAREA" ->
   Rotation.keydown_listener fl env e w2 = (Ok VUndefined, w2)).
Proof.
  split.
  - intros H. unfold Keys.keydown_listener.
    destruct H as [-> | [-> | ->]]; cbn [String.eqb orb];
      rewrite ?orb_true_r; reflexivity.
  - intros H. unfold Rotation.keydown_listener.
    destruct H as [-> | ->]; cbn [String.eqb orb];
      rewrite ?orb_true_r; reflexivity.
Qed.

Lemma typing_is_not_a_shortcut_witness :
  Keys.tagName {| Keys.key := " "; Keys.tagName := "INPUT";
                  Keys.isContentEditable := false;
                  Keys.ctrlKey := false; Keys.metaKey := false |} = "INPUT" /\
  Keys.keydown_listener (always (VBool true))
    {| Keys.key := " "; Keys.tagName := "INPUT"; Keys.isContentEditable := false;
       Keys.ctrlKey := false; Keys.metaKey := false |} Keys.boot
  = (Ok VUndefined, Keys.boot).
Proof.
  split; [reflexivity |].
  apply (typing_is_not_a_shortcut exact (always (VBool true)) _ Keys.boot
           Rotation.boot).
  left. reflexivity.
Defined.

Ltac unmoved :=
  let H := fresh "Hmoved" in
  intros H; exfalso; apply H; reflexivity.

(** X19. The listener [setupKeyboardShortcuts] puts on the document
    changes the session state only for the space bar, P and Escape (in any
    letter case); when it handles A, C, N, M or any other key it leaves the
    state alone.  The start button's own Enter and space listener is
    another listener and is not part of this statement. *)
Theorem session_keys_accessible (env : nat -> response) (e : Keys.keydown)
    (w : world Keys.AccessiblePage) :
  Accessible.state (Keys.ui (self (snd (Keys.keydown_listener env e w))))
  <> Accessible.state (Keys.ui (self w)) ->
  In (Keys.toLowerCase (Keys.key e)) [" "; "p"; "escape"].
Proof.
  destruct e as [key tag editable ctrl meta].
  destruct w as [[[st ann] doc] k tr].
  unfold Keys.keydown_listener.
  cbn [Keys.tagName Keys.key Keys.isContentEditable self Keys.ui Accessible.state].
  destruct ((tag =? "INPUT") || (tag =? "TEXTAREA") || editable);
    [cbn; unmoved |].
  destruct (Keys.toLowerCase key =? " ") eqn:E1;
    [intros _; apply String.eqb_eq in E1; rewrite E1; cbn; auto |].
  destruct (Keys.toLowerCase key =? "p") eqn:E2;
    [intros _; apply String.eqb_eq in E2; rewrite E2; cbn; auto |].
  destruct (Keys.toLowerCase key =? "a");
    [page_unfold; cbn; repeat (js_case; cbn); unmoved |].
  destruct (Keys.toLowerCase key =? "c");
    [page_unfold; cbn; repeat (js_case; cbn); unmoved |].
  destruct (Keys.toLowerCase key =? "n");
    [page_unfold; cbn; repeat (js_case; cbn); unmoved |].
  destruct (Keys.toLowerCase key =? "escape") eqn:E6;
    [intros _; apply String.eqb_eq in E6; rewrite E6; cbn; auto |].
  destruct (Keys.toLowerCase key =? "m").
  - page_unfold. cbn -[Page.toggleQuickMenu].
    destruct (Page.toggleQuickMenu doc) as [doc' [s |]]; cbn; unmoved.
  - cbn. unmoved.
Qed.

Lemma session_keys_accessible_witness :
  Accessible.state
    (Keys.ui (self (snd (Keys.keydown_listener (always VUndefined)
                           {| Keys.key := "P"; Keys.tagName := "BODY";
                              Keys.isContentEditable := false;
                              Keys.ctrlKey := false; Keys.metaKey := false |}
                           {| self := {| Keys.ui := {| Accessible.state := tracking;
                                                       Accessible.announcements := [] |};
                                         Keys.document := [] |};
                              clock := 0; trace := [] |}))))
  <> tracking /\
  In (Keys.toLowerCase "P") [" "; "p"; "escape"].
Proof.
  assert (H : Accessible.state
    (Keys.ui (self (snd (Keys.keydown_listener (always VUndefined)
                           {| Keys.key := "P"; Keys.tagName := "BODY";
                              Keys.isContentEditable := false;
                              Keys.ctrlKey := false; Keys.metaKey := false |}
                           {| self := {| Keys.ui := {| Accessible.state := tracking;
                                                       Accessible.announcements := [] |};
                                         Keys.document := [] |};
                              clock := 0; trace := [] |}))))
    <> tracking) by (cbn; discriminate).
  split; [exact H |].
  exact (session_keys_accessible _ _ _ H).
Defined.

(** X20. The listener the enhanced tracker's [setupKeyboardShortcuts]
    puts on the document changes the session state only for the space bar
    and for S with Ctrl or Meta; when it handles Escape it closes the form
    and the panels but stops nothing, and R, P, N, A leave the session
    alone.  The Enter and space listeners of the play/pause and save
    buttons are other listeners and are not part of this statement. *)
Theorem session_keys_enhanced (fl : Q -> Q) (env : nat -> response)
    (e : Keys.keydown) (w : world Rotation.EnhancedPage) :
  Enhanced.state (Rotation.iface (self (snd (Rotation.keydown_listener fl env e w))))
  <> Enhanced.state (Rotation.iface (self w)) ->
  Keys.toLowerCase (Keys.key e) = " " \/
  (Keys.toLowerCase (Keys.key e) = "s" /\ Keys.ctrlKey e || Keys.metaKey e = true).
Proof.
  destruct e as [key tag editable ctrl meta].
  destruct w as [[[st h rot] orig hdl] k tr].
  unfold Rotation.keydown_listener.
  cbn [Keys.tagName Keys.key Keys.ctrlKey Keys.metaKey self Rotation.iface
       Enhanced.state].
  destruct ((tag =? "INPUT") || (tag =? "TEXTAREA")); [cbn; unmoved |].
  destruct (Keys.toLowerCase key =? " ") eqn:E1;
    [intros _; apply String.eqb_eq in E1; auto |].
  destruct (Keys.toLowerCase key =? "s") eqn:E2.
  { apply String.eqb_eq in E2. destruct (ctrl || meta); [auto |].
    cbn. unmoved. }
  destruct (Keys.toLowerCase key =? "a");
    [page_unfold; cbn; repeat (js_case; cbn); unmoved |].
  destruct (Keys.toLowerCase key =? "escape");
    [page_unfold; cbn; repeat (js_case; cbn); unmoved |].
  destruct (Keys.toLowerCase key =? "r").
  { page_unfold; cbn; repeat (js_case; cbn); try unmoved;
      destruct orig as [[|] |]; cbn; unmoved. }
  destruct (Keys.toLowerCase key =? "p");
    [page_unfold; cbn; repeat (js_case; cbn); unmoved |].
  destruct (Keys.toLowerCase key =? "n");
    [page_unfold; cbn; repeat (js_case; cbn); unmoved |].
  cbn. unmoved.
Qed.

Lemma session_keys_enhanced_witness :
  Enhanced.state
    (Rotation.iface
       (self (snd (Rotation.keydown_listener exact (always (VBool true))
                     {| Keys.key := " "; Keys.tagName := "BODY";
                        Keys.isContentEditable := false;
                        Keys.ctrlKey := false; Keys.metaKey := false |}
                     Rotation.boot))))
  <> Enhanced.state (Rotation.iface (self Rotation.boot)) /\
  (Keys.toLowerCase " " = " " \/
   (Keys.toLowerCase " " = "s" /\ false || false = true)).
Proof.
  assert (H : Enhanced.state
    (Rotation.iface
       (self (snd (Rotation.keydown_listener exact (always (VBool true))
                     {| Keys.key := " "; Keys.tagName := "BODY";
                        Keys.isContentEditable := false;
                        Keys.ctrlKey := false; Keys.metaKey := false |}
                     Rotation.boot))))
    <> Enhanced.state (Rotation.iface (self Rotation.boot)))
    by (cbn; discriminate).
  split; [exact H |].
  exact (session_keys_enhanced _ _ _ _ H).
Defined.

Ltac some_legal_step :=
  split;
  [ unfold valid, idle, tracking, paused; auto
  | first [ left; reflexivity | right; eexists; constructor ] ].

Ltac stays := split; [assumption | left; reflexivity].

Lemma keydown_step_legal env e w :
  valid (Accessible.state (Keys.ui (self w))) ->
  valid (Accessible.state (Keys.ui (self (snd (Keys.keydown_listener env e w))))) /\
  (Accessible.state (Keys.ui (self (snd (Keys.keydown_listener env e w))))
   = Accessible.state (Keys.ui (self w)) \/
   exists l,
     legal (Accessible.state (Keys.ui (self w))) l
           (Accessible.state (Keys.ui (self (snd (Keys.keydown_listener env e w)))))).
Proof.
  destruct e as [key tag editable ctrl meta].
  destruct w as [[[st ann] doc] k tr].
  cbn [self Keys.ui Accessible.state].
  intros Hvalid.
  unfold Keys.keydown_listener.
  cbn [Keys.tagName Keys.key Keys.isContentEditable].
  destruct ((tag =? "INPUT") || (tag =? "TEXTAREA") || editable);
    [cbn; stays |].
  destruct (Keys.toLowerCase key =? " ").
  { destruct Hvalid as [-> | [-> | ->]];
      page_unfold; cbn; repeat (js_case; cbn); some_legal_step. }
  destruct (Keys.toLowerCase key =? "p").
  { destruct Hvalid as [-> | [-> | ->]];
      page_unfold; cbn; repeat (js_case; cbn); some_legal_step. }
  destruct (Keys.toLowerCase key =? "a");
    [page_unfold; cbn; repeat (js_case; cbn); stays |].
  destruct (Keys.toLowerCase key =? "c");
    [page_unfold; cbn; repeat (js_case; cbn); stays |].
  destruct (Keys.toLowerCase key =? "n");
    [page_unfold; cbn; repeat (js_case; cbn); stays |].
  destruct (Keys.toLowerCase key =? "escape").
  { destruct Hvalid as [-> | [-> | ->]];
      page_unfold; cbn; repeat (js_case; cbn); some_legal_step. }
  destruct (Keys.toLowerCase key =? "m").
  - page_unfold. cbn -[Page.toggleQuickMenu].
    destruct (Page.toggleQuickMenu doc) as [doc' [s |]]; cbn;
      stays.
  - cbn. stays.
Qed.

(** X21. Key events that only the document listener of
    [setupKeyboardShortcuts] handles (their target is not the start button,
    which has a listener of its own) obey the session state machine:
    whatever such keys are pressed and whatever the collaborators answer,
    the accessible interface stays in idle, tracking or paused, and each
    key either leaves the state or performs a legal transition. *)
Theorem keyboard_sessions_are_legal (env : nat -> response)
    (keys : list Keys.keydown) (e : Keys.keydown) :
  let w := fold_left (fun w e => snd (Keys.keydown_listener env e w)) keys Keys.boot in
  let w' := snd (Keys.keydown_listener env e w) in
  valid (Accessible.state (Keys.ui (self w))) /\
  (Accessible.state (Keys.ui (self w')) = Accessible.state (Keys.ui (self w)) \/
   exists l,
     legal (Accessible.state (Keys.ui (self w))) l
           (Accessible.state (Keys.ui (self w')))).
Proof.
  cbv zeta.
  assert (Hrun : forall w,
            valid (Accessible.state (Keys.ui (self w))) ->
            valid (Accessible.state
                     (Keys.ui (self (fold_left
                        (fun w e => snd (Keys.keydown_listener env e w)) keys w))))).
  { induction keys as [| a keys IH]; intros w Hw; [exact Hw |].
    cbn. apply IH. now apply keydown_step_legal. }
  assert (Hw := Hrun Keys.boot (or_introl eq_refl)).
  split; [exact Hw |]. now apply keydown_step_legal.
Qed.

(** ** The compass wiring *)

Example toggled_twice :
  let w := Rotation.run exact
             (script [Ret VUndefined; Ret (VBool true); Ret (VBool true);
                      Ret VUndefined; Ret (VBool true); Ret (VBool true)])
             [Rotation.Toggle; Rotation.Toggle] Rotation.boot in
  Rotation.originalCompassHandler (self w) = Some Rotation.Original /\
  Rotation.handleOrientationChange (self w) = Rotation.Wrapper.
Proof. cbv zeta. split; reflexivity. Qed.

Lemma wiring_step fl env h w :
  Rotation.originalCompassHandler (self w) <> Some Rotation.Wrapper /\
  (Rotation.handleOrientationChange (self w) = Rotation.Wrapper ->
   Rotation.originalCompassHandler (self w) = Some Rotation.Original) ->
  (Rotation.originalCompassHandler (self (Rotation.occur fl env w h))
   <> Some Rotation.Wrapper /\
   (Rotation.handleOrientationChange (self (Rotation.occur fl env w h))
    = Rotation.Wrapper ->
    Rotation.originalCompassHandler (self (Rotation.occur fl env w h))
    = Some Rotation.Original)) /\
  Enhanced.state (Rotation.iface (self (Rotation.occur fl env w h)))
  = Enhanced.state (Rotation.iface (self w)).
Proof.
  destruct w as [[[st hd rot] orig hdl] k tr].
  cbn [self Rotation.originalCompassHandler Rotation.handleOrientationChange
       Rotation.iface Enhanced.state].
  intros [Hno Hwrapped].
  destruct orig as [[|] |]; [| exfalso; apply Hno; reflexivity |];
    destruct hdl;
    try (specialize (Hwrapped eq_refl); discriminate Hwrapped);
    destruct h as [| alpha]; try destruct alpha as [a |];
    page_unfold; cbn; repeat (js_case; cbn);
    repeat split; try discriminate; try reflexivity; intros; try discriminate.
Qed.

(** X22. However often map rotation is toggled and whatever the compass
    controller and the page answer, the handler kept in
    [originalCompassHandler] is never the wrapper itself, and whenever the
    wrapper is installed the controller's own handler is the one it calls:
    every orientation event reaches that handler exactly once.  None of
    this touches the session state. *)
Theorem compass_wiring_is_sound (fl : Q -> Q) (env : nat -> response)
    (hs : list Rotation.happening) (alpha : option Q) :
  let w := Rotation.run fl env hs Rotation.boot in
  Rotation.originalCompassHandler (self w) <> Some Rotation.Wrapper /\
  (Rotation.handleOrientationChange (self w) = Rotation.Wrapper ->
   Rotation.originalCompassHandler (self w) = Some Rotation.Original) /\
  Enhanced.state (Rotation.iface (self w)) = idle /\
  calls (since w (snd (Rotation.orientation_event fl env alpha w)))
  = [OriginalCompassHandler alpha].
Proof.
  cbv zeta.
  assert (Hrun : forall w,
            (Rotation.originalCompassHandler (self w) <> Some Rotation.Wrapper /\
             (Rotation.handleOrientationChange (self w) = Rotation.Wrapper ->
              Rotation.originalCompassHandler (self w) = Some Rotation.Original)) ->
            (Rotation.originalCompassHandler (self (Rotation.run fl env hs w))
             <> Some Rotation.Wrapper /\
             (Rotation.handleOrientationChange (self (Rotation.run fl env hs w))
              = Rotation.Wrapper ->
              Rotation.originalCompassHandler (self (Rotation.run fl env hs w))
              = Some Rotation.Original)) /\
            Enhanced.state (Rotation.iface (self (Rotation.run fl env hs w)))
            = Enhanced.state (Rotation.iface (self w))).
  { induction hs as [| h hs IH]; intros w Hw; [split; [exact Hw | reflexivity] |].
    cbn [Rotation.run fold_left].
    destruct (wiring_step fl env h w Hw) as [Hw' Hst].
    destruct (IH _ Hw') as [Hinv Hst']. split; [exact Hinv |].
    unfold Rotation.run in Hst'. congruence. }
  destruct (Hrun Rotation.boot) as [[Hno Hwrapped] Hstate].
  { split; [discriminate | intros H; discriminate H]. }
  split; [exact Hno |]. split; [exact Hwrapped |]. split; [exact Hstate |].
  clear Hrun Hstate.
  destruct (Rotation.run fl env hs Rotation.boot) as [[[st hd rot] orig hdl] k tr].
  cbn [self Rotation.originalCompassHandler Rotation.handleOrientationChange] in *.
  destruct hdl.
  - page_unfold. cbn. js_case; cbn; since_simpl; reflexivity.
  - rewrite (Hwrapped eq_refl). destruct alpha as [a |];
      page_unfold; cbn; js_case; cbn; since_simpl; reflexivity.
Qed.

Lemma compass_wiring_is_sound_witness :
  Rotation.handleOrientationChange
    (self (Rotation.run exact (always (VBool true)) [Rotation.Toggle] Rotation.boot))
  = Rotation.Wrapper /\
  Rotation.originalCompassHandler
    (self (Rotation.run exact (always (VBool true)) [Rotation.Toggle] Rotation.boot))
  = Some Rotation.Original.
Proof.
  split; [reflexivity |].
  destruct (compass_wiring_is_sound exact (always (VBool true)) [Rotation.Toggle] None)
    as (_ & Hwrapped & _).
  exact (Hwrapped eq_refl).
Defined.

(** X23. Switching rotation off points the needle north: when
    [toggleMapRotation] finds the controller's rotation inactive and the
    toggle button on the page, it returns normally with the heading reset to
    0 and [isMapRotationEnabled] false, the session state untouched. *)
Theorem rotation_off_resets_heading (fl : Q -> Q) (env : nat -> response)
    (v1 active toggle : value) (w : world Rotation.EnhancedPage) :
  env (clock w) = Ret v1 ->
  env (S (clock w)) = Ret active -> truthy active = false ->
  env (S (S (clock w))) = Ret toggle -> truthy toggle = true ->
  let r := Rotation.toggleMapRotation fl env w in
  fst r = Ok VUndefined /\
  Enhanced.heading (Rotation.iface (self (snd r))) = 0%Z /\
  Enhanced.isMapRotationEnabled (Rotation.iface (self (snd r))) = false /\
  Enhanced.state (Rotation.iface (self (snd r)))
  = Enhanced.state (Rotation.iface (self w)).
Proof.
  destruct w as [[[st hd rot] orig hdl] k tr]. cbn [clock].
  intros H1 H2 Ht2 H3 Ht3. cbv zeta. page_unfold. cbn.
  rewrite H1. cbn. rewrite H2. cbn. rewrite H3. cbn. rewrite Ht3. cbn.
  rewrite Ht2. cbn. repeat split.
Qed.

Lemma rotation_off_resets_heading_witness :
  script [Ret VUndefined; Ret (VBool false); Ret (VBool true)] 0%nat = Ret VUndefined /\
  script [Ret VUndefined; Ret (VBool false); Ret (VBool true)] 1%nat = Ret (VBool false) /\
  truthy (VBool false) = false /\
  script [Ret VUndefined; Ret (VBool false); Ret (VBool true)] 2%nat = Ret (VBool true) /\
  truthy (VBool true) = true /\
  Enhanced.heading
    (Rotation.iface
       (self (snd (Rotation.toggleMapRotation exact
                     (script [Ret VUndefined; Ret (VBool false); Ret (VBool true)])
                     Rotation.boot)))) = 0%Z.
Proof.
  repeat (split; [reflexivity |]).
  apply (rotation_off_resets_heading exact
           (script [Ret VUndefined; Ret (VBool false); Ret (VBool true)])
           VUndefined (VBool false) (VBool true) Rotation.boot); reflexivity.
Defined.

(** ** Launching without a backup, and restores that fail *)

(** X24. Without a backup nothing is asked: when the look-up returns a
    falsy value, [handleUnsavedRoute] and [checkForBackupRoute] make no
    other call (no prompt, no restore, no clearing), change nothing and
    return normally. *)
Theorem no_backup_no_prompt (env env2 : nat -> response) (v v2 : value)
    (w : world Accessible.AccessibleTrackingInterface)
    (w2 : world Enhanced.EnhancedTrackingInterface) :
  env (clock w) = Ret v -> truthy v = false ->
  env2 (clock w2) = Ret v2 -> truthy v2 = false ->
  Accessible.handleUnsavedRoute env w
  = (Ok VUndefined,
     {| self := self w; clock := S (clock w);
        trace := trace w ++ [Called CheckForUnsavedRoute (Ret v)] |}) /\
  fst (Enhanced.checkForBackupRoute env2 w2) = Ok VUndefined /\
  self (snd (Enhanced.checkForBackupRoute env2 w2)) = self w2 /\
  calls (since w2 (snd (Enhanced.checkForBackupRoute env2 w2)))
  = [CheckForUnsavedRoute].
Proof.
  destruct w as [o k tr], w2 as [o2 k2 tr2]. cbn [self clock trace].
  intros Hv Ht Hv2 Ht2. js_unfold. cbn.
  rewrite Hv, Hv2. cbn. rewrite Ht, Ht2. cbn.
  repeat split. since_simpl. reflexivity.
Qed.

Lemma no_backup_no_prompt_witness :
  always VNull (clock Accessible.boot) = Ret VNull /\
  truthy VNull = false /\
  always VNull (clock Enhanced.boot) = Ret VNull /\
  calls (since Enhanced.boot (snd (Enhanced.checkForBackupRoute (always VNull)
                                     Enhanced.boot)))
  = [CheckForUnsavedRoute].
Proof.
  repeat (split; [reflexivity |]).
  apply (no_backup_no_prompt (always VNull) (always VNull) VNull VNull
           Accessible.boot Enhanced.boot); reflexivity.
Defined.

(** X25. An accepted restore that [restoreFromBackup] declines (falsy
    result) is handled differently by the two interfaces:
    [showRestoreDialog] shows an error, clears the backup slot and resolves
    with [false]; [checkForBackupRoute] only logs the failure and leaves
    the backup where it is. *)
Theorem declined_restore (env env2 : nat -> response) (backupData backup : value)
    (s : summary) (prompt : message) (yes no cleared yes2 no2 : value)
    (w : world Accessible.AccessibleTrackingInterface)
    (w2 : world Enhanced.EnhancedTrackingInterface) :
  truthy backupData = true ->
  typeof_object backupData = true ->
  Accessible.summarize backupData = Ok s ->
  env (clock w) = Ret yes -> truthy yes = true ->
  env (S (clock w)) = Ret no -> truthy no = false ->
  env (S (S (clock w))) = Ret cleared ->
  env2 (clock w2) = Ret backup -> truthy backup = true ->
  Enhanced.backup_prompt backup = Ok prompt ->
  env2 (S (clock w2)) = Ret yes2 -> truthy yes2 = true ->
  env2 (S (S (clock w2))) = Ret no2 -> truthy no2 = false ->
  (fst (Accessible.showRestoreDialog env backupData w) = Ok false /\
   calls (since w (snd (Accessible.showRestoreDialog env backupData w)))
   = [Confirm (RestoreOffer s); RestoreFromBackup backupData; ClearRouteBackup]) /\
  (fst (Enhanced.checkForBackupRoute env2 w2) = Ok VUndefined /\
   calls (since w2 (snd (Enhanced.checkForBackupRoute env2 w2)))
   = [CheckForUnsavedRoute; Confirm prompt; RestoreFromBackup backup]).
Proof.
  destruct w as [o k tr], w2 as [o2 k2 tr2]. cbn [self clock trace].
  intros Hb Hobj Hs H1 Ht1 H2 Ht2 H3 Hc Hbk Hp Hy Hty Hn Htn.
  split.
  - js_unfold. rewrite Hb, Hobj, Hs. cbn.
    rewrite H1. cbn. rewrite Ht1. cbn. rewrite H2. cbn. rewrite Ht2. cbn.
    rewrite H3. cbn. split; [reflexivity |]. since_simpl. reflexivity.
  - js_unfold. cbn. rewrite Hc. cbn. rewrite Hbk, Hp. cbn.
    rewrite Hy. cbn. rewrite Hty. cbn. rewrite Hn. cbn. rewrite Htn. cbn.
    split; [reflexivity |]. since_simpl. reflexivity.
Qed.

Lemma declined_restore_witness :
  truthy sample_backup = true /\
  typeof_object sample_backup = true /\
  script [Ret (VBool true); Ret (VBool false); Ret VUndefined] 0%nat = Ret (VBool true) /\
  script [Ret (VBool true); Ret (VBool false); Ret VUndefined] 1%nat = Ret (VBool false) /\
  script [Ret (VBool true); Ret (VBool false); Ret VUndefined] 2%nat = Ret VUndefined /\
  script [Ret sample_backup; Ret (VBool true); Ret (VBool false)] 0%nat
  = Ret sample_backup /\
  script [Ret sample_backup; Ret (VBool true); Ret (VBool false)] 1%nat
  = Ret (VBool true) /\
  script [Ret sample_backup; Ret (VBool true); Ret (VBool false)] 2%nat
  = Ret (VBool false) /\
  fst (Accessible.showRestoreDialog
         (script [Ret (VBool true); Ret (VBool false); Ret VUndefined])
         sample_backup Accessible.boot) = Ok false.
Proof.
  repeat (split; [reflexivity |]).
  eapply (declined_restore
            (script [Ret (VBool true); Ret (VBool false); Ret VUndefined])
            (script [Ret sample_backup; Ret (VBool true); Ret (VBool false)])
            sample_backup sample_backup _ _ (VBool true) (VBool false) VUndefined
            (VBool true) (VBool false) Accessible.boot Enhanced.boot);
    reflexivity.
Defined.
